(** * Task API: a shallow embedding of [main.py]

    The program is a FastAPI application over two hosted services: a Firebase
    identity provider and a Firestore collection ["tasks"].  The handlers are
    embedded as computations in a state-and-exception monad over the
    collection; documents are Python dicts, modelled as finite maps from
    field names to values. *)

From Stdlib Require Import Ascii.
From stdpp Require Import base option list strings gmap fin_maps.

(** ** Python values, exceptions and results *)

(** The values that occur in task documents and in [dict()] of the request
    models: strings, booleans and [None]. *)
Inductive value : Type :=
  | VStr (s : string)
  | VBool (b : bool)
  | VNone.

#[global] Instance value_eq_dec : EqDecision value.
Proof. solve_decision. Defined.

(** The exceptions the handlers can meet.  [HTTPException] is FastAPI's; the
    others are raised by Python itself or by the client libraries. *)
Inductive exn : Type :=
  | HTTPException (status_code : nat) (detail : string)
  | KeyError (key : string)
  | TypeError (msg : string)
  | ValueError (msg : string)
  | NotFound (msg : string)
  | RequestValidationError (msg : string)
  | ProviderError (msg : string).

#[global] Instance exn_eq_dec : EqDecision exn.
Proof. solve_decision. Defined.

Inductive outcome (A : Type) : Type :=
  | Return (a : A)
  | Raise (e : exn).

Arguments Return {A} a.
Arguments Raise {A} e.

(** [str(e)] of an exception: its message. *)
Definition str_exn (e : exn) : string :=
  match e with
  | HTTPException _ _ => ""
  | KeyError k => "'" +:+ k +:+ "'"
  | TypeError m | ValueError m | NotFound m
  | RequestValidationError m | ProviderError m => m
  end.

(** The status FastAPI answers with: 200 for a returned value, the status of
    an [HTTPException], 422 when the request does not validate against the
    handler's parameter models, and 500 for any other exception that
    escapes. *)
Definition http_status {A : Type} (o : outcome A) : nat :=
  match o with
  | Return _ => 200
  | Raise (HTTPException c _) => c
  | Raise (RequestValidationError _) => 422
  | Raise _ => 500
  end.

(** ** The handler monad: state (the collection) and exceptions *)

Definition Handler (A : Type) : Type :=
  gmap string (gmap string value) -> gmap string (gmap string value) * outcome A.

#[global] Instance Handler_ret : MRet Handler :=
  fun A a db => (db, Return a).

#[global] Instance Handler_bind : MBind Handler :=
  fun A B k m db =>
    match m db with
    | (db', Return a) => k a db'
    | (db', Raise e) => (db', Raise e)
    end.

Definition raise {A : Type} (e : exn) : Handler A :=
  fun db => (db, Raise e).

(** ** The Firestore client, as far as the handlers use it *)

Module Firestore.

(** [task_ref.get()]: a snapshot of the document, [None] when it does not
    exist. *)
Definition get (doc_id : string) : Handler (option (gmap string value)) :=
  fun db => (db, Return (db !! doc_id)).

(** [snapshot.exists] *)
Definition exists_ (snap : option (gmap string value)) : bool :=
  match snap with Some _ => true | None => false end.

(** [snapshot.to_dict()] *)
Definition to_dict (snap : option (gmap string value))
  : option (gmap string value) := snap.

(** [task_ref.set(data)]: creates or overwrites the document. *)
Definition set (doc_id : string) (data : gmap string value) : Handler unit :=
  fun db => (<[doc_id := data]> db, Return tt).

(** [task_ref.update(field_updates)]: the client refuses an empty
    [field_updates] before anything is sent; the write requires the
    document to exist and merges the given fields into it. *)
Definition update (doc_id : string) (field_updates : gmap string value)
  : Handler unit :=
  fun db =>
    if decide (field_updates = ∅) then
      (db, Raise (ValueError "Cannot update with an empty document."))
    else
      match db !! doc_id with
      | None => (db, Raise (NotFound doc_id))
      | Some d => (<[doc_id := field_updates ∪ d]> db, Return tt)
      end.

(** [task_ref.delete()] *)
Definition delete (doc_id : string) : Handler unit :=
  fun db => (base.delete doc_id db, Return tt).

(** [collection.where(field, "==", v).stream()]: the documents whose
    [field] holds [v], with their ids, in the store's order. *)
Definition where_eq (field : string) (v : value)
  : Handler (list (string * gmap string value)) :=
  fun db =>
    (db, Return (filter (fun kd => kd.2 !! field = Some v) (map_to_list db))).

End Firestore.

(** [d[k]] on a Python dict. *)
Definition getitem (d : gmap string value) (k : string) : Handler value :=
  match d !! k with
  | Some v => mret v
  | None => raise (KeyError k)
  end.

(** [d[k]] when [d] may be [None]. *)
Definition getitem_opt (d : option (gmap string value)) (k : string)
  : Handler value :=
  match d with
  | Some d => getitem d k
  | None => raise (TypeError "'NoneType' object is not subscriptable")
  end.

(** ** Request and response models *)

Record Task : Type := {
  title : string;
  description : string;
  completed : bool
}.

Record TaskUpdate : Type := {
  upd_title : option string;
  upd_description : option string;
  upd_completed : option bool
}.

Record GeneralResModel : Type := {
  message : string;
  task_id : string
}.

(** The verified identity [get_current_user] hands to a handler; the
    handlers read only [user["uid"]]. *)
Record User : Type := { uid : string }.

Definition Task_dict (t : Task) : gmap string value :=
  {[ "title" := VStr (title t);
     "description" := VStr (description t);
     "completed" := VBool (completed t) ]}.

Definition opt_value {A : Type} (inj : A -> value) (o : option A) : value :=
  match o with Some a => inj a | None => VNone end.

Definition TaskUpdate_dict (t : TaskUpdate) : gmap string value :=
  {[ "title" := opt_value VStr (upd_title t);
     "description" := opt_value VStr (upd_description t);
     "completed" := opt_value VBool (upd_completed t) ]}.

(** A field of a JSON request body for [TaskUpdate]: left out, [null], or a
    value of the field's type. *)
Inductive json_field (A : Type) : Type :=
  | Absent
  | Null
  | Given (a : A).

Arguments Absent {A}.
Arguments Null {A}.
Arguments Given {A} a.

Record TaskUpdateBody : Type := {
  body_title : json_field string;
  body_description : json_field string;
  body_completed : json_field bool
}.

(** Validation of an [Optional[...] = None] field. *)
Definition validate_optional {A : Type} (f : json_field A) : option A :=
  match f with
  | Given a => Some a
  | Null | Absent => None
  end.

Definition TaskUpdate_validate (b : TaskUpdateBody) : TaskUpdate :=
  {| upd_title := validate_optional (body_title b);
     upd_description := validate_optional (body_description b);
     upd_completed := validate_optional (body_completed b) |}.

(** ** The task handlers *)

Definition get_user_tasks (user : User) : Handler (list (gmap string value)) :=
  tasks ← Firestore.where_eq "user_id" (VStr (uid user));
  mret ((fun kd : string * gmap string value => <["id" := VStr kd.1]> kd.2) <$> tasks).

(** [auto_id] is the identifier [collection.document()] generates. *)
Definition create_task (auto_id : string) (task : Task) (user : User)
  : Handler GeneralResModel :=
  _ ← Firestore.set auto_id (<["user_id" := VStr (uid user)]> (Task_dict task));
  mret {| message := "Task created successfully"; task_id := auto_id |}.

Definition data_to_update (task : TaskUpdate) : gmap string value :=
  filter (fun kv => kv.2 ≠ VNone) (TaskUpdate_dict task).

Definition update_task (task_id : string) (task : TaskUpdate) (user : User)
  : Handler GeneralResModel :=
  snap ← Firestore.get task_id;
  if negb (Firestore.exists_ snap) then
    raise (HTTPException 404 "Task not found")
  else
    snap' ← Firestore.get task_id;
    owner ← getitem_opt (Firestore.to_dict snap') "user_id";
    if bool_decide (owner ≠ VStr (uid user)) then
      raise (HTTPException 403 "Access forbidden")
    else
      _ ← Firestore.update task_id (data_to_update task);
      mret {| message := "Task updated successfully"; task_id := task_id |}.

Definition delete_task (task_id : string) (user : User)
  : Handler GeneralResModel :=
  snap ← Firestore.get task_id;
  if negb (Firestore.exists_ snap) then
    raise (HTTPException 404 "Task not found")
  else
    snap' ← Firestore.get task_id;
    owner ← getitem_opt (Firestore.to_dict snap') "user_id";
    if bool_decide (owner ≠ VStr (uid user)) then
      raise (HTTPException 403 "Access forbidden")
    else
      _ ← Firestore.delete task_id;
      mret {| message := "Task deleted successfully"; task_id := task_id |}.

Definition complete_task (task_id : string) (user : User)
  : Handler GeneralResModel :=
  snap ← Firestore.get task_id;
  if negb (Firestore.exists_ snap) then
    raise (HTTPException 404 "Task not found")
  else
    snap' ← Firestore.get task_id;
    owner ← getitem_opt (Firestore.to_dict snap') "user_id";
    if bool_decide (owner ≠ VStr (uid user)) then
      raise (HTTPException 403 "Access forbidden")
    else
      _ ← Firestore.update task_id {[ "completed" := VBool true ]};
      mret {| message := "Task completed successfully"; task_id := task_id |}.

(** [PUT /task/{task_id}] from the JSON body on. *)
Definition put_task (task_id : string) (body : TaskUpdateBody) (user : User)
  : Handler GeneralResModel :=
  update_task task_id (TaskUpdate_validate body) user.

(** ** Requests against the task endpoints, and runs of them *)

Inductive request : Type :=
  | ReqCreate (auto_id : string) (task : Task) (user : User)
  | ReqUpdate (task_id : string) (task : TaskUpdate) (user : User)
  | ReqDelete (task_id : string) (user : User)
  | ReqComplete (task_id : string) (user : User).

Definition handle (r : request) : Handler GeneralResModel :=
  match r with
  | ReqCreate auto_id task user => create_task auto_id task user
  | ReqUpdate task_id task user => update_task task_id task user
  | ReqDelete task_id user => delete_task task_id user
  | ReqComplete task_id user => complete_task task_id user
  end.

(** The collection after serving the requests one after the other. *)
Fixpoint serve (rs : list request) (db : gmap string (gmap string value))
  : gmap string (gmap string value) :=
  match rs with
  | [] => db
  | r :: rs' => serve rs' (handle r db).1
  end.

(** A collection that only this API has written to. *)
Definition reachable (db : gmap string (gmap string value)) : Prop :=
  exists rs, serve rs ∅ = db.

(** Requests that address an existing record and go through the ownership
    check: update and complete (delete destroys the record). *)
Definition is_mutation (r : request) : bool :=
  match r with
  | ReqUpdate _ _ _ | ReqComplete _ _ => true
  | ReqCreate _ _ _ | ReqDelete _ _ => false
  end.

(** The three handlers that address one record. *)
Inductive record_op : Type :=
  | OpUpdate (task : TaskUpdate)
  | OpDelete
  | OpComplete.

Definition run_op (op : record_op) (task_id : string) (user : User)
  : Handler GeneralResModel :=
  match op with
  | OpUpdate task => update_task task_id task user
  | OpDelete => delete_task task_id user
  | OpComplete => complete_task task_id user
  end.

(** ** Registration and login *)

Record UserRegistration : Type := {
  email : string;
  password : string
}.

Record RegResModel : Type := {
  reg_message : string;
  user_uid : string
}.

(** The JSON body of [POST /register] before validation. *)
Record RegistrationBody : Type := {
  body_email : string;
  body_password : string
}.

(** The first check of [EmailStr]: the address must split at an @-sign. *)
Fixpoint has_at_sign (s : string) : bool :=
  match s with
  | EmptyString => false
  | String c rest => if Ascii.eqb c "@"%char then true else has_at_sign rest
  end.

Section Identity.

(** The identity provider's client: [auth.create_user], giving the new
    user's uid, and [f_auth.sign_in_with_email_and_password], giving the
    provider's user dict; both may raise. *)
Variable auth_create_user : string -> string -> outcome string.
Variable sign_in_with_email_and_password :
  string -> string -> outcome (gmap string string).

(** What [EmailStr] checks beyond the @-sign, with the normalised address
    it yields. *)
Variable email_validator : string -> option string.

Definition EmailStr_validate (s : string) : option string :=
  if has_at_sign s then email_validator s else None.

Definition create_user (email password : string) : outcome string :=
  auth_create_user email password.

Definition authenticate_user (email password : string)
  : option (gmap string string) :=
  match sign_in_with_email_and_password email password with
  | Return user =>
      match user !! "idToken" with
      | Some tok => Some {[ "access_token" := tok; "token_type" := "bearer" ]}
      | None => None
      end
  | Raise _ => None
  end.

Definition register_user (user : UserRegistration) : outcome RegResModel :=
  match create_user (email user) (password user) with
  | Return user_uid =>
      Return {| reg_message := "User registered successfully";
                user_uid := user_uid |}
  | Raise e => Raise (HTTPException 400 (str_exn e))
  end.

(** [if user_id:] on an [Optional[dict]]. *)
Definition truthy (o : option (gmap string string)) : bool :=
  match o with
  | Some d => bool_decide (d ≠ ∅)
  | None => false
  end.

Definition login_user (username password : string)
  : outcome (option (gmap string string)) :=
  let user_id := authenticate_user username password in
  if truthy user_id then Return user_id
  else Raise (HTTPException 401 "Login failed").

(** [POST /register] from the JSON body on: the body is validated against
    [UserRegistration] before the handler runs. *)
Definition post_register (body : RegistrationBody) : outcome RegResModel :=
  match EmailStr_validate (body_email body) with
  | Some e => register_user {| email := e; password := body_password body |}
  | None => Raise (RequestValidationError "value is not a valid email address")
  end.

End Identity.

(** ** Reading a request body field by field *)

Definition json_map {A B : Type} (f : A -> B) (x : json_field A)
  : json_field B :=
  match x with
  | Absent => Absent
  | Null => Null
  | Given a => Given (f a)
  end.

(** The field [k] of a body, as sent. *)
Definition body_field (b : TaskUpdateBody) (k : string) : json_field value :=
  if decide (k = "title") then json_map VStr (body_title b)
  else if decide (k = "description") then json_map VStr (body_description b)
  else if decide (k = "completed") then json_map VBool (body_completed b)
  else Absent.

(** The same body with every [null] left out. *)
Definition null_as_absent {A : Type} (x : json_field A) : json_field A :=
  match x with
  | Null => Absent
  | other => other
  end.

Definition body_without_nulls (b : TaskUpdateBody) : TaskUpdateBody :=
  {| body_title := null_as_absent (body_title b);
     body_description := null_as_absent (body_description b);
     body_completed := null_as_absent (body_completed b) |}.

(** ** Sample data

    Two users and the collection after the first of them has created one
    task, used to run the handlers on concrete requests. *)

Module Sample.

Definition alice : User := {| uid := "u1" |}.
Definition bob : User := {| uid := "u2" |}.

Definition groceries : Task :=
  {| title := "A"; description := "B"; completed := false |}.

Definition db1 : gmap string (gmap string value) :=
  (create_task "t1" groceries alice ∅).1.

Definition stored : gmap string value :=
  <["user_id" := VStr "u1"]> (Task_dict groceries).

Definition empty_update : TaskUpdate :=
  {| upd_title := None; upd_description := None; upd_completed := None |}.

Definition only_completed : TaskUpdate :=
  {| upd_title := None; upd_description := None; upd_completed := Some true |}.

Definition null_title_body : TaskUpdateBody :=
  {| body_title := Null; body_description := Absent;
     body_completed := Given true |}.

End Sample.

(** ** Bearer-token verification *)

(** How [auth.verify_id_token] fails, by the [except] clause of
    [get_current_user] that catches the exception: an
    [ExpiredIdTokenError] (the first clause), any other
    [InvalidIdTokenError] (the second), or any other exception. *)
Inductive verify_failure : Type :=
  | ExpiredIdTokenError
  | InvalidIdTokenError
  | OtherVerifyError.

Inductive verify_result : Type :=
  | Verified (user : User)
  | Rejected (f : verify_failure).

Section Auth.

Variable verify_id_token : string -> verify_result.

Definition get_current_user (authorization : string) : outcome User :=
  match verify_id_token authorization with
  | Verified user => Return user
  | Rejected ExpiredIdTokenError =>
      Raise (HTTPException 401 "Expired ID token")
  | Rejected InvalidIdTokenError =>
      Raise (HTTPException 401 "Invalid ID token")
  | Rejected OtherVerifyError =>
      Raise (HTTPException 401 "Invalid or missing Authorization header")
  end.

(** A handler with the parameter [user: dict = Depends(get_current_user)]:
    the dependency is resolved first, and its exception ends the
    request. *)
Definition Depends_current_user {A : Type} (h : User -> Handler A)
    (authorization : string) : Handler A :=
  match get_current_user authorization with
  | Return user => h user
  | Raise e => raise e
  end.

End Auth.

(** ** Requests, read apart *)

Definition request_user (r : request) : User :=
  match r with
  | ReqCreate _ _ user | ReqUpdate _ _ user
  | ReqDelete _ user | ReqComplete _ user => user
  end.

(** The document a request addresses: the generated id for a creation, the
    path parameter otherwise. *)
Definition request_target (r : request) : string :=
  match r with
  | ReqCreate auto_id _ _ => auto_id
  | ReqUpdate task_id _ _ | ReqDelete task_id _ | ReqComplete task_id _ =>
      task_id
  end.

Definition is_create (r : request) : bool :=
  match r with
  | ReqCreate _ _ _ => true
  | _ => false
  end.

(** A request of somebody other than [owner] that does not create a
    document under [doc_id]. *)
Definition foreign_to (owner doc_id : string) (r : request) : bool :=
  bool_decide (uid (request_user r) ≠ owner)
  && negb (is_create r && bool_decide (request_target r = doc_id)).

(** ** The response model of the listing *)

(** Validation of one listed record against [TaskInDb]: [title],
    [description], [user_id] and [id] hold strings and [completed] a
    boolean. *)
Definition is_str (o : option value) : bool :=
  match o with Some (VStr _) => true | _ => false end.

Definition is_bool (o : option value) : bool :=
  match o with Some (VBool _) => true | _ => false end.

Definition TaskInDb_validate (r : gmap string value) : bool :=
  is_str (r !! "title") && is_str (r !! "description")
  && is_bool (r !! "completed") && is_str (r !! "user_id")
  && is_str (r !! "id").

(** A stored document as [create_task] writes it. *)
Definition stored_task_shape (d : gmap string value) : bool :=
  is_str (d !! "title") && is_str (d !! "description")
  && is_bool (d !! "completed") && is_str (d !! "user_id").

(** ** The TRACE endpoint *)

(** Header names are case-insensitive: the headers object keeps them in
    lower case. *)
Definition lower_ascii (c : ascii) : ascii :=
  let n := nat_of_ascii c in
  if (65 <=? n) && (n <=? 90) then ascii_of_nat (n + 32) else c.

Fixpoint lower (s : string) : string :=
  match s with
  | EmptyString => EmptyString
  | String c rest => String (lower_ascii c) (lower rest)
  end.

(** The [Response] object a handler is handed: its headers and the status
    code it may set. *)
Record Response : Type := {
  headers : gmap string string;
  status_code : option nat
}.

(** [response.headers[k] = v] *)
Definition set_header (k v : string) (response : Response) : Response :=
  {| headers := <[lower k := v]> (headers response);
     status_code := status_code response |}.

(** [response.status_code = c] *)
Definition set_status (c : nat) (response : Response) : Response :=
  {| headers := headers response; status_code := Some c |}.

Section Trace.

(** [bytes.decode("utf-8")]: the text, or nothing when the bytes are not
    UTF-8 (a [UnicodeDecodeError]). *)
Variable decode_utf8 : list Byte.byte -> option string.

(** [request_headers] is [request.headers.items()], in the order received. *)
Definition get_trace (request_headers : list (string * string))
    (request_body : list Byte.byte) (response : Response)
  : Response * outcome string :=
  let response :=
    foldl (fun resp kv => set_header kv.1 kv.2 resp) response request_headers in
  let response := set_header "Content-Type" "message/http" response in
  let response := set_status 200 response in
  (response,
   match decode_utf8 request_body with
   | Some text => Return text
   | None => Raise (ValueError "'utf-8' codec can't decode bytes")
   end).

End Trace.

(** ** More sample data *)

Module Fixtures.

Definition carol : User := {| uid := "u3" |}.

Definition chores : Task :=
  {| title := "C"; description := "D"; completed := true |}.

Definition retitle : TaskUpdate :=
  {| upd_title := Some "Z"; upd_description := None; upd_completed := None |}.

(** A verifier that knows one token. *)
Definition verify_one (authorization : string) : verify_result :=
  if decide (authorization = "tok-u1") then Verified Sample.alice
  else if decide (authorization = "tok-old") then Rejected ExpiredIdTokenError
  else Rejected InvalidIdTokenError.

Definition trace_headers : list (string * string) :=
  [("host", "h"); ("content-type", "text/plain"); ("x-a", "1"); ("x-a", "2")].

Definition fresh_response : Response :=
  {| headers := ∅; status_code := None |}.

End Fixtures.

(** * Properties *)

(** ** Running a handler *)

Ltac unfold_handler :=
  unfold run_op, handle, update_task, delete_task, complete_task, create_task,
    get_user_tasks, put_task, getitem_opt, getitem, raise,
    Firestore.get, Firestore.set, Firestore.update, Firestore.delete,
    Firestore.where_eq, Firestore.to_dict, Firestore.exists_,
    mbind, mret, Handler_bind, Handler_ret.

Ltac run_handler := unfold_handler; simpl.

Lemma singleton_completed_nonempty :
  ({[ "completed" := VBool true ]} : gmap string value) ≠ ∅.
Proof. apply map_non_empty_singleton. Qed.

Ltac run_with Hd Ho :=
  run_handler; repeat first [rewrite Hd | rewrite Ho | progress simpl].

Lemma run_op_missing (op : record_op) (task_id : string) (user : User)
    (db : gmap string (gmap string value)) :
  db !! task_id = None ->
  run_op op task_id user db = (db, Raise (HTTPException 404 "Task not found")).
Proof.
  intros Hnone. destruct op; run_handler; rewrite Hnone; reflexivity.
Qed.

Lemma run_op_no_owner (op : record_op) (task_id : string) (user : User)
    (db : gmap string (gmap string value)) (d : gmap string value) :
  db !! task_id = Some d ->
  d !! "user_id" = None ->
  run_op op task_id user db = (db, Raise (KeyError "user_id")).
Proof.
  intros Hd Ho. destruct op; run_with Hd Ho; reflexivity.
Qed.

Lemma run_op_forbidden (op : record_op) (task_id : string) (user : User)
    (db : gmap string (gmap string value)) (d : gmap string value)
    (owner : value) :
  db !! task_id = Some d ->
  d !! "user_id" = Some owner ->
  owner ≠ VStr (uid user) ->
  run_op op task_id user db = (db, Raise (HTTPException 403 "Access forbidden")).
Proof.
  intros Hd Ho Hne.
  destruct op; run_with Hd Ho;
    rewrite bool_decide_eq_true_2 by assumption; reflexivity.
Qed.

Lemma update_task_owner (task_id : string) (task : TaskUpdate) (user : User)
    (db : gmap string (gmap string value)) (d : gmap string value) :
  db !! task_id = Some d ->
  d !! "user_id" = Some (VStr (uid user)) ->
  update_task task_id task user db =
    if decide (data_to_update task = ∅) then
      (db, Raise (ValueError "Cannot update with an empty document."))
    else
      (<[task_id := data_to_update task ∪ d]> db,
       Return {| message := "Task updated successfully"; task_id := task_id |}).
Proof.
  intros Hd Ho. run_with Hd Ho.
  rewrite bool_decide_eq_false_2 by (intros H; apply H; reflexivity).
  destruct (decide (data_to_update task = ∅)); [reflexivity|].
  rewrite Hd. reflexivity.
Qed.

Lemma delete_task_owner (task_id : string) (user : User)
    (db : gmap string (gmap string value)) (d : gmap string value) :
  db !! task_id = Some d ->
  d !! "user_id" = Some (VStr (uid user)) ->
  delete_task task_id user db =
    (delete task_id db,
     Return {| message := "Task deleted successfully"; task_id := task_id |}).
Proof.
  intros Hd Ho. run_with Hd Ho.
  rewrite bool_decide_eq_false_2 by (intros H; apply H; reflexivity).
  reflexivity.
Qed.

Lemma complete_task_owner (task_id : string) (user : User)
    (db : gmap string (gmap string value)) (d : gmap string value) :
  db !! task_id = Some d ->
  d !! "user_id" = Some (VStr (uid user)) ->
  complete_task task_id user db =
    (<[task_id := {[ "completed" := VBool true ]} ∪ d]> db,
     Return {| message := "Task completed successfully"; task_id := task_id |}).
Proof.
  intros Hd Ho. run_with Hd Ho.
  rewrite bool_decide_eq_false_2 by (intros H; apply H; reflexivity).
  destruct (decide (_ = ∅)) as [He|_].
  - exfalso. exact (singleton_completed_nonempty He).
  - rewrite Hd. reflexivity.
Qed.

Lemma run_op_error_unchanged (op : record_op) (task_id : string) (user : User)
    (db : gmap string (gmap string value)) (e : exn) :
  (run_op op task_id user db).2 = Raise e ->
  (run_op op task_id user db).1 = db.
Proof.
  destruct (db !! task_id) as [d|] eqn:Hd.
  2: { rewrite run_op_missing by assumption. reflexivity. }
  destruct (d !! "user_id") as [o|] eqn:Ho.
  2: { rewrite (run_op_no_owner _ _ _ _ d) by assumption. reflexivity. }
  destruct (decide (o = VStr (uid user))) as [->|Hne].
  2: { rewrite (run_op_forbidden _ _ _ _ d o) by assumption. reflexivity. }
  destruct op; simpl.
  - rewrite (update_task_owner _ _ _ _ d) by assumption.
    destruct (decide (data_to_update task = ∅)); simpl;
      [reflexivity | discriminate].
  - rewrite (delete_task_owner _ _ _ d) by assumption. simpl. discriminate.
  - rewrite (complete_task_owner _ _ _ d) by assumption. simpl. discriminate.
Qed.

Lemma sample_db1_lookup : Sample.db1 !! "t1" = Some Sample.stored.
Proof. vm_compute. reflexivity. Qed.

Lemma sample_stored_owner : Sample.stored !! "user_id" = Some (VStr "u1").
Proof. vm_compute. reflexivity. Qed.

Lemma sample_db1_missing : Sample.db1 !! "t2" = None.
Proof. vm_compute. reflexivity. Qed.

(** ** The ownership guard of update, delete and complete *)

(** C1: in update, delete and complete the existence check comes before
    the ownership check.  A missing record gives 404 (never 403), whoever
    asks; an existing record whose [user_id] is not the caller's uid gives
    403; an existing record of the caller passes the guard, and the handler
    goes on to its write on the store. *)
Theorem guard_existence_before_ownership (op : record_op) (task_id : string)
    (user : User) (db : gmap string (gmap string value)) :
  (db !! task_id = None ->
     (run_op op task_id user db).2 = Raise (HTTPException 404 "Task not found")
     /\ http_status (run_op op task_id user db).2 = 404)
  /\ (forall d owner,
        db !! task_id = Some d ->
        d !! "user_id" = Some owner ->
        owner ≠ VStr (uid user) ->
        (run_op op task_id user db).2
          = Raise (HTTPException 403 "Access forbidden")
        /\ http_status (run_op op task_id user db).2 = 403)
  /\ (forall d,
        db !! task_id = Some d ->
        d !! "user_id" = Some (VStr (uid user)) ->
        http_status (run_op op task_id user db).2 ≠ 404
        /\ http_status (run_op op task_id user db).2 ≠ 403
        /\ run_op op task_id user db =
             match op with
             | OpUpdate task =>
                 (_ ← Firestore.update task_id (data_to_update task);
                  mret {| message := "Task updated successfully";
                          task_id := task_id |}) db
             | OpDelete =>
                 (_ ← Firestore.delete task_id;
                  mret {| message := "Task deleted successfully";
                          task_id := task_id |}) db
             | OpComplete =>
                 (_ ← Firestore.update task_id {[ "completed" := VBool true ]};
                  mret {| message := "Task completed successfully";
                          task_id := task_id |}) db
             end).
Proof.
  split; [|split].
  - intros Hnone. rewrite run_op_missing by assumption. split; reflexivity.
  - intros d owner Hd Ho Hne.
    rewrite (run_op_forbidden _ _ _ _ d owner) by assumption.
    split; reflexivity.
  - intros d Hd Ho. destruct op; simpl.
    + rewrite (update_task_owner _ _ _ _ d) by assumption.
      unfold_handler.
      destruct (decide (data_to_update task = ∅)); simpl;
        [|rewrite Hd]; repeat split; simpl; discriminate.
    + rewrite (delete_task_owner _ _ _ d) by assumption.
      repeat split; simpl; discriminate.
    + rewrite (complete_task_owner _ _ _ d) by assumption.
      unfold_handler.
      destruct (decide (_ = ∅)) as [He|_];
        [exfalso; exact (singleton_completed_nonempty He)|].
      rewrite Hd. repeat split; simpl; discriminate.
Qed.

Lemma guard_existence_before_ownership_witness :
  ((run_op OpDelete "t2" Sample.bob Sample.db1).2
     = Raise (HTTPException 404 "Task not found")
   /\ http_status (run_op OpDelete "t2" Sample.bob Sample.db1).2 = 404)
  /\ ((run_op OpDelete "t1" Sample.bob Sample.db1).2
        = Raise (HTTPException 403 "Access forbidden")
      /\ http_status (run_op OpDelete "t1" Sample.bob Sample.db1).2 = 403)
  /\ http_status (run_op OpDelete "t1" Sample.alice Sample.db1).2 ≠ 404.
Proof.
  split; [|split].
  - exact (proj1 (guard_existence_before_ownership
                    OpDelete "t2" Sample.bob Sample.db1) sample_db1_missing).
  - refine (proj1 (proj2 (guard_existence_before_ownership
                            OpDelete "t1" Sample.bob Sample.db1))
              Sample.stored (VStr "u1")
              sample_db1_lookup sample_stored_owner _).
    simpl. discriminate.
  - exact (proj1 (proj2 (proj2 (guard_existence_before_ownership
                            OpDelete "t1" Sample.alice Sample.db1))
              Sample.stored sample_db1_lookup sample_stored_owner)).
Defined.

(** C10: when update, delete or complete answers 404 or 403, or fails in
    any other way, the collection is the one the request found: no error
    follows a write. *)
Theorem error_leaves_store_unchanged (op : record_op) (task_id : string)
    (user : User) (db : gmap string (gmap string value)) :
  (http_status (run_op op task_id user db).2 = 404
   \/ http_status (run_op op task_id user db).2 = 403 ->
   (run_op op task_id user db).1 = db)
  /\ (forall e, (run_op op task_id user db).2 = Raise e ->
                (run_op op task_id user db).1 = db).
Proof.
  split.
  - intros Hst.
    destruct (run_op op task_id user db).2 as [a|e] eqn:Hout.
    + simpl in Hst. destruct Hst; discriminate.
    + exact (run_op_error_unchanged _ _ _ _ e Hout).
  - apply run_op_error_unchanged.
Qed.

Lemma error_leaves_store_unchanged_witness :
  (run_op (OpUpdate Sample.only_completed) "t1" Sample.bob Sample.db1).1
    = Sample.db1.
Proof.
  apply (proj1 (error_leaves_store_unchanged
                  (OpUpdate Sample.only_completed) "t1" Sample.bob Sample.db1)).
  right. vm_compute. reflexivity.
Defined.

(** ** Delete *)

(** C6: when the owner deletes a task twice, the first request answers 200
    and removes the record, and the second one answers 404. *)
Theorem delete_twice_second_is_404 (task_id : string) (user : User)
    (db : gmap string (gmap string value)) (d : gmap string value) :
  db !! task_id = Some d ->
  d !! "user_id" = Some (VStr (uid user)) ->
  (delete_task task_id user db).2
    = Return {| message := "Task deleted successfully"; task_id := task_id |}
  /\ http_status (delete_task task_id user db).2 = 200
  /\ (delete_task task_id user db).1 !! task_id = None
  /\ (delete_task task_id user db).1 = delete task_id db
  /\ (delete_task task_id user (delete_task task_id user db).1).2
       = Raise (HTTPException 404 "Task not found")
  /\ http_status (delete_task task_id user (delete_task task_id user db).1).2
       = 404
  /\ (delete_task task_id user (delete_task task_id user db).1).1
       = delete task_id db.
Proof.
  intros Hd Ho.
  rewrite (delete_task_owner _ _ _ d) by assumption. simpl.
  assert (Hgone : delete task_id db !! task_id = None)
    by apply lookup_delete_eq.
  pose proof (run_op_missing OpDelete task_id user _ Hgone) as H2.
  simpl in H2. rewrite H2. simpl.
  repeat split; try reflexivity. exact Hgone.
Qed.

Lemma delete_twice_second_is_404_witness :
  http_status (delete_task "t1" Sample.alice Sample.db1).2 = 200
  /\ http_status
       (delete_task "t1" Sample.alice
          (delete_task "t1" Sample.alice Sample.db1).1).2 = 404.
Proof.
  pose proof (delete_twice_second_is_404 "t1" Sample.alice Sample.db1
                Sample.stored sample_db1_lookup sample_stored_owner) as H.
  split.
  - exact (proj1 (proj2 H)).
  - exact (proj1 (proj2 (proj2 (proj2 (proj2 (proj2 H)))))).
Defined.

(** ** Update and complete *)

Lemma TaskUpdate_dict_lookup (task : TaskUpdate) (k : string) :
  TaskUpdate_dict task !! k =
    if decide (k = "title") then Some (opt_value VStr (upd_title task))
    else if decide (k = "description") then
      Some (opt_value VStr (upd_description task))
    else if decide (k = "completed") then
      Some (opt_value VBool (upd_completed task))
    else None.
Proof.
  unfold TaskUpdate_dict.
  repeat case_decide; subst; simplify_map_eq; reflexivity.
Qed.

Lemma data_to_update_lookup (task : TaskUpdate) (k : string) :
  data_to_update task !! k =
    if decide (k = "title") then VStr <$> upd_title task
    else if decide (k = "description") then VStr <$> upd_description task
    else if decide (k = "completed") then VBool <$> upd_completed task
    else None.
Proof.
  unfold data_to_update. rewrite map_lookup_filter, TaskUpdate_dict_lookup.
  destruct task as [[t|] [ds|] [c|]]; simpl;
    repeat case_decide; simpl; try reflexivity;
    try (rewrite option_guard_True by discriminate; reflexivity);
    try (rewrite option_guard_False by (intros H'; apply H'; reflexivity);
         reflexivity).
Qed.

Lemma data_to_update_not_None (task : TaskUpdate) (k : string) :
  data_to_update task !! k ≠ Some VNone.
Proof.
  unfold data_to_update. intros H.
  apply map_lookup_filter_Some in H. destruct H as [_ H].
  apply H. reflexivity.
Qed.

Lemma data_to_update_user_id (task : TaskUpdate) :
  data_to_update task !! "user_id" = None.
Proof. rewrite data_to_update_lookup. reflexivity. Qed.

Lemma data_to_update_only_completed :
  data_to_update Sample.only_completed = {[ "completed" := VBool true ]}.
Proof.
  apply map_eq. intros k. rewrite data_to_update_lookup.
  repeat case_decide; subst; simplify_map_eq; reflexivity.
Qed.

(** What a request to update or complete does to the collection: nothing,
    or a merge of fields other than [user_id] into the addressed record. *)
Lemma update_task_store (task_id : string) (task : TaskUpdate) (user : User)
    (db : gmap string (gmap string value)) :
  (update_task task_id task user db).1 = db
  \/ exists d, db !! task_id = Some d
       /\ d !! "user_id" = Some (VStr (uid user))
       /\ data_to_update task ≠ ∅
       /\ update_task task_id task user db =
            (<[task_id := data_to_update task ∪ d]> db,
             Return {| message := "Task updated successfully";
                       task_id := task_id |}).
Proof.
  destruct (update_task task_id task user db).2 as [a|e] eqn:Hout.
  2: { left. exact (run_op_error_unchanged (OpUpdate task) _ _ _ e Hout). }
  destruct (db !! task_id) as [d|] eqn:Hd.
  2: { pose proof (run_op_missing (OpUpdate task) task_id user db Hd) as H.
       simpl in H. rewrite H in Hout. discriminate. }
  destruct (d !! "user_id") as [o|] eqn:Ho.
  2: { pose proof (run_op_no_owner (OpUpdate task) task_id user db d Hd Ho)
         as H. simpl in H. rewrite H in Hout. discriminate. }
  destruct (decide (o = VStr (uid user))) as [->|Hne].
  2: { pose proof (run_op_forbidden (OpUpdate task) task_id user db d o
                     Hd Ho Hne) as H.
       simpl in H. rewrite H in Hout. discriminate. }
  right. exists d. rewrite (update_task_owner _ _ _ _ d) in * by assumption.
  destruct (decide (data_to_update task = ∅)); [discriminate|].
  repeat split; assumption || reflexivity.
Qed.

Lemma complete_task_store (task_id : string) (user : User)
    (db : gmap string (gmap string value)) :
  (complete_task task_id user db).1 = db
  \/ exists d, db !! task_id = Some d
       /\ d !! "user_id" = Some (VStr (uid user))
       /\ complete_task task_id user db =
            (<[task_id := {[ "completed" := VBool true ]} ∪ d]> db,
             Return {| message := "Task completed successfully";
                       task_id := task_id |}).
Proof.
  destruct (complete_task task_id user db).2 as [a|e] eqn:Hout.
  2: { left. exact (run_op_error_unchanged OpComplete _ _ _ e Hout). }
  destruct (db !! task_id) as [d|] eqn:Hd.
  2: { pose proof (run_op_missing OpComplete task_id user db Hd) as H.
       simpl in H. rewrite H in Hout. discriminate. }
  destruct (d !! "user_id") as [o|] eqn:Ho.
  2: { pose proof (run_op_no_owner OpComplete task_id user db d Hd Ho) as H.
       simpl in H. rewrite H in Hout. discriminate. }
  destruct (decide (o = VStr (uid user))) as [->|Hne].
  2: { pose proof (run_op_forbidden OpComplete task_id user db d o Hd Ho Hne)
         as H.
       simpl in H. rewrite H in Hout. discriminate. }
  right. exists d. rewrite (complete_task_owner _ _ _ d) by assumption.
  repeat split; assumption || reflexivity.
Qed.

(** C5: on an existing task of the caller, complete does to the collection
    what update does with the partial input [{completed: true}]: the
    record's [completed] becomes [True], every other field and every other
    record stay as they were, and the answer is 200 with a message and the
    task id. *)
Theorem complete_is_update_completed_true (task_id : string) (user : User)
    (db : gmap string (gmap string value)) (d : gmap string value) :
  db !! task_id = Some d ->
  d !! "user_id" = Some (VStr (uid user)) ->
  (complete_task task_id user db).1
    = (update_task task_id
         {| upd_title := None; upd_description := None;
            upd_completed := Some true |} user db).1
  /\ (complete_task task_id user db).1
       = <[task_id := <["completed" := VBool true]> d]> db
  /\ (forall k, k ≠ "completed" ->
        (complete_task task_id user db).1 !! task_id ≫= (fun d' => d' !! k)
          = d !! k)
  /\ (forall other, other ≠ task_id ->
        (complete_task task_id user db).1 !! other = db !! other)
  /\ (complete_task task_id user db).2
       = Return {| message := "Task completed successfully";
                   task_id := task_id |}
  /\ http_status (complete_task task_id user db).2 = 200
  /\ http_status
       (update_task task_id
          {| upd_title := None; upd_description := None;
             upd_completed := Some true |} user db).2 = 200.
Proof.
  intros Hd Ho.
  rewrite (complete_task_owner _ _ _ d) by assumption.
  rewrite (update_task_owner _ _ _ _ d) by assumption.
  fold Sample.only_completed. rewrite data_to_update_only_completed.
  destruct (decide (_ = ∅)) as [He|_];
    [exfalso; exact (singleton_completed_nonempty He)|].
  simpl. rewrite <- insert_union_singleton_l.
  repeat split.
  - intros k Hk. rewrite lookup_insert_eq. simpl.
    apply lookup_insert_ne. congruence.
  - intros other Hother. apply lookup_insert_ne. congruence.
Qed.

Lemma complete_is_update_completed_true_witness :
  (complete_task "t1" Sample.alice Sample.db1).1
    = (update_task "t1"
         {| upd_title := None; upd_description := None;
            upd_completed := Some true |} Sample.alice Sample.db1).1.
Proof.
  exact (proj1 (complete_is_update_completed_true "t1" Sample.alice Sample.db1
                  Sample.stored sample_db1_lookup sample_stored_owner)).
Defined.

Lemma TaskUpdate_validate_without_nulls (b : TaskUpdateBody) :
  TaskUpdate_validate (body_without_nulls b) = TaskUpdate_validate b.
Proof. destruct b as [[| |t] [| |ds] [| |c]]; reflexivity. Qed.

Lemma null_field_filtered (b : TaskUpdateBody) (k : string) :
  body_field b k = Null \/ body_field b k = Absent ->
  data_to_update (TaskUpdate_validate b) !! k = None.
Proof.
  rewrite data_to_update_lookup. unfold body_field.
  destruct b as [bt bd bc]; simpl.
  repeat case_decide; try reflexivity;
    [destruct bt | destruct bd | destruct bc]; simpl;
    intros [Hf|Hf]; try discriminate; reflexivity.
Qed.

(** C9: in the body of an update a field sent as [null] counts as a field
    left out: the request is served as if the nulls were not there, the
    field does not reach the merge, and the stored field keeps its value.
    So an update never makes a stored field [None] that was not [None]
    before. *)
Theorem null_field_is_absent_field (task_id : string) (b : TaskUpdateBody)
    (user : User) (db : gmap string (gmap string value)) :
  put_task task_id b user db = put_task task_id (body_without_nulls b) user db
  /\ (forall k, body_field b k = Null \/ body_field b k = Absent ->
        data_to_update (TaskUpdate_validate b) !! k = None)
  /\ (forall k, body_field b k = Null \/ body_field b k = Absent ->
        (put_task task_id b user db).1 !! task_id ≫= (fun d' => d' !! k)
          = db !! task_id ≫= (fun d => d !! k))
  /\ (forall other d' k,
        (put_task task_id b user db).1 !! other = Some d' ->
        d' !! k = Some VNone ->
        exists d, db !! other = Some d /\ d !! k = Some VNone).
Proof.
  unfold put_task. rewrite TaskUpdate_validate_without_nulls.
  split; [reflexivity|]. split; [apply null_field_filtered|].
  destruct (update_task_store task_id (TaskUpdate_validate b) user db)
    as [Hsame | (d & Hd & Ho & Hne & Hrun)].
  - rewrite Hsame. split; [reflexivity|].
    intros other d' k Hd' Hk. exists d'. split; assumption.
  - rewrite Hrun. cbn [fst snd]. split.
    + intros k Hk. rewrite lookup_insert_eq, Hd. cbn [mbind option_bind].
      apply lookup_union_r, null_field_filtered, Hk.
    + intros other d' k Hd' Hk.
      destruct (decide (other = task_id)) as [->|Hother].
      * rewrite lookup_insert_eq in Hd'. apply (inj Some) in Hd'. subst d'.
        exists d. split; [assumption|].
        apply lookup_union_Some_raw in Hk.
        destruct Hk as [Hk | [_ Hk]]; [|exact Hk].
        exfalso. exact (data_to_update_not_None _ _ Hk).
      * rewrite lookup_insert_ne in Hd' by congruence.
        exists d'. split; assumption.
Qed.

Lemma null_field_is_absent_field_witness :
  (put_task "t1" Sample.null_title_body Sample.alice Sample.db1).1 !! "t1"
     ≫= (fun d' => d' !! "title")
  = Sample.db1 !! "t1" ≫= (fun d => d !! "title").
Proof.
  apply (proj1 (proj2 (proj2 (null_field_is_absent_field
                  "t1" Sample.null_title_body Sample.alice Sample.db1)))).
  left. vm_compute. reflexivity.
Defined.

(** ** Ownership of a record over time *)

Lemma create_task_store (auto_id : string) (task : Task) (user : User)
    (db : gmap string (gmap string value)) :
  create_task auto_id task user db =
    (<[auto_id := <["user_id" := VStr (uid user)]> (Task_dict task)]> db,
     Return {| message := "Task created successfully"; task_id := auto_id |}).
Proof. reflexivity. Qed.

Lemma mutation_keeps_owner (r : request)
    (db : gmap string (gmap string value)) (id : string)
    (d : gmap string value) :
  is_mutation r = true ->
  db !! id = Some d ->
  exists d', (handle r db).1 !! id = Some d'
             /\ d' !! "user_id" = d !! "user_id".
Proof.
  intros Hmut Hd. destruct r as [a t u | tid task user | tid u | tid user];
    try discriminate; cbn [handle].
  - destruct (update_task_store tid task user db)
      as [Hsame | (d0 & Hd0 & _ & _ & Hrun)].
    + rewrite Hsame. exists d. split; [assumption | reflexivity].
    + rewrite Hrun. cbn [fst].
      destruct (decide (id = tid)) as [->|Hne].
      * rewrite lookup_insert_eq. eexists. split; [reflexivity|].
        rewrite lookup_union_r by apply data_to_update_user_id. congruence.
      * rewrite lookup_insert_ne by congruence.
        exists d. split; [assumption | reflexivity].
  - destruct (complete_task_store tid user db)
      as [Hsame | (d0 & Hd0 & _ & Hrun)].
    + rewrite Hsame. exists d. split; [assumption | reflexivity].
    + rewrite Hrun. cbn [fst].
      destruct (decide (id = tid)) as [->|Hne].
      * rewrite lookup_insert_eq. eexists. split; [reflexivity|].
        rewrite lookup_union_r by (apply lookup_singleton_ne; discriminate).
        congruence.
      * rewrite lookup_insert_ne by congruence.
        exists d. split; [assumption | reflexivity].
Qed.

Lemma serve_keeps_owner (rs : list request) :
  forallb is_mutation rs = true ->
  forall (db : gmap string (gmap string value)) (id : string)
         (d : gmap string value),
    db !! id = Some d ->
    exists d', serve rs db !! id = Some d'
               /\ d' !! "user_id" = d !! "user_id".
Proof.
  induction rs as [|r rs IH]; intros Hall db id d Hd; cbn [serve].
  - exists d. split; [assumption | reflexivity].
  - cbn [forallb] in Hall. apply andb_prop in Hall. destruct Hall as [Hr Hrs].
    destruct (mutation_keeps_owner r db id d Hr Hd) as (d1 & Hd1 & Ho1).
    destruct (IH Hrs _ id d1 Hd1) as (d2 & Hd2 & Ho2).
    exists d2. split; [assumption | congruence].
Qed.

(** C4: the [user_id] of a record is the uid of the caller who created it,
    and no run of update and complete requests, by whomever and with
    whatever input, changes the [user_id] of any record. *)
Theorem owner_set_at_creation_and_kept (auto_id : string) (task : Task)
    (user : User) (rs : list request)
    (db : gmap string (gmap string value)) :
  forallb is_mutation rs = true ->
  (create_task auto_id task user db).1 !! auto_id
     ≫= (fun d => d !! "user_id") = Some (VStr (uid user))
  /\ serve rs (create_task auto_id task user db).1 !! auto_id
       ≫= (fun d => d !! "user_id") = Some (VStr (uid user))
  /\ (forall id d, db !! id = Some d ->
        serve rs db !! id ≫= (fun d' => d' !! "user_id") = d !! "user_id").
Proof.
  intros Hall.
  assert (Hnew : (create_task auto_id task user db).1 !! auto_id
                 = Some (<["user_id" := VStr (uid user)]> (Task_dict task))).
  { rewrite create_task_store. cbn [fst]. apply lookup_insert_eq. }
  split; [|split].
  - rewrite Hnew. cbn [mbind option_bind]. apply lookup_insert_eq.
  - destruct (serve_keeps_owner rs Hall _ auto_id _ Hnew) as (d' & Hd' & Ho).
    rewrite Hd'. cbn [mbind option_bind]. rewrite Ho. apply lookup_insert_eq.
  - intros id d Hd.
    destruct (serve_keeps_owner rs Hall db id d Hd) as (d' & Hd' & Ho).
    rewrite Hd'. exact Ho.
Qed.

Lemma owner_set_at_creation_and_kept_witness :
  serve [ReqUpdate "t1" Sample.only_completed Sample.alice;
         ReqComplete "t1" Sample.bob;
         ReqUpdate "t1" Sample.empty_update Sample.alice]
        (create_task "t1" Sample.groceries Sample.alice ∅).1 !! "t1"
    ≫= (fun d => d !! "user_id") = Some (VStr (uid Sample.alice)).
Proof.
  apply (owner_set_at_creation_and_kept "t1" Sample.groceries Sample.alice
           [ReqUpdate "t1" Sample.only_completed Sample.alice;
            ReqComplete "t1" Sample.bob;
            ReqUpdate "t1" Sample.empty_update Sample.alice] ∅).
  reflexivity.
Defined.

(** Every record of a collection that only this API has written to carries
    the uid of some user as its [user_id]. *)
Lemma serve_records_owned (rs : list request)
    (db : gmap string (gmap string value)) :
  (forall id d, db !! id = Some d -> exists u, d !! "user_id" = Some (VStr u)) ->
  forall id d, serve rs db !! id = Some d ->
               exists u, d !! "user_id" = Some (VStr u).
Proof.
  revert db. induction rs as [|r rs IH]; intros db Hinv; cbn [serve];
    [exact Hinv|].
  apply IH. intros id d Hd.
  destruct r as [a t u | tid task user | tid user | tid user]; cbn [handle] in Hd.
  - rewrite create_task_store in Hd. cbn [fst] in Hd.
    destruct (decide (id = a)) as [->|Hne].
    + rewrite lookup_insert_eq in Hd. apply (inj Some) in Hd. subst d.
      exists (uid u). apply lookup_insert_eq.
    + rewrite lookup_insert_ne in Hd by congruence. exact (Hinv id d Hd).
  - destruct (db !! id) as [d0|] eqn:Hd0.
    + destruct (mutation_keeps_owner (ReqUpdate tid task user) db id d0
                  eq_refl Hd0) as (d' & Hd' & Ho).
      cbn [handle] in Hd'. rewrite Hd in Hd'. apply (inj Some) in Hd'. subst d'.
      rewrite Ho. exact (Hinv id d0 Hd0).
    + destruct (update_task_store tid task user db)
        as [Hsame | (d1 & Hd1 & _ & _ & Hrun)].
      * rewrite Hsame in Hd. congruence.
      * rewrite Hrun in Hd. cbn [fst] in Hd.
        destruct (decide (id = tid)) as [->|Hne]; [congruence|].
        rewrite lookup_insert_ne in Hd by congruence. congruence.
  - destruct (db !! tid) as [d0|] eqn:Hd0.
    + destruct (d0 !! "user_id") as [o|] eqn:Ho.
      * destruct (decide (o = VStr (uid user))) as [->|Hne].
        -- rewrite (delete_task_owner _ _ _ d0) in Hd by assumption.
           cbn [fst] in Hd. apply lookup_delete_Some in Hd.
           exact (Hinv id d (proj2 Hd)).
        -- pose proof (run_op_forbidden OpDelete tid user db d0 o Hd0 Ho Hne)
             as H. cbn [run_op] in H. rewrite H in Hd. exact (Hinv id d Hd).
      * pose proof (run_op_no_owner OpDelete tid user db d0 Hd0 Ho) as H.
        cbn [run_op] in H. rewrite H in Hd. exact (Hinv id d Hd).
    + pose proof (run_op_missing OpDelete tid user db Hd0) as H.
      cbn [run_op] in H. rewrite H in Hd. exact (Hinv id d Hd).
  - destruct (db !! id) as [d0|] eqn:Hd0.
    + destruct (mutation_keeps_owner (ReqComplete tid user) db id d0
                  eq_refl Hd0) as (d' & Hd' & Ho).
      cbn [handle] in Hd'. rewrite Hd in Hd'. apply (inj Some) in Hd'. subst d'.
      rewrite Ho. exact (Hinv id d0 Hd0).
    + destruct (complete_task_store tid user db)
        as [Hsame | (d1 & Hd1 & _ & Hrun)].
      * rewrite Hsame in Hd. congruence.
      * rewrite Hrun in Hd. cbn [fst] in Hd.
        destruct (decide (id = tid)) as [->|Hne]; [congruence|].
        rewrite lookup_insert_ne in Hd by congruence. congruence.
Qed.

Lemma reachable_records_owned (db : gmap string (gmap string value)) :
  reachable db ->
  forall id d, db !! id = Some d -> exists u, d !! "user_id" = Some (VStr u).
Proof.
  intros [rs <-]. apply serve_records_owned.
  intros id d Hd. rewrite lookup_empty in Hd. discriminate.
Qed.

(** ** Listing *)

Lemma get_user_tasks_run (user : User) (db : gmap string (gmap string value)) :
  get_user_tasks user db =
    (db,
     Return ((fun kd : string * gmap string value => <["id" := VStr kd.1]> kd.2)
               <$> filter (fun kd : string * gmap string value =>
                             kd.2 !! "user_id" = Some (VStr (uid user)))
                     (map_to_list db))).
Proof. reflexivity. Qed.

(** C3: list-tasks answers with exactly the stored records whose [user_id]
    is the caller's uid, each once and with its id added, in the store's
    order; so for two different users the list of one holds no record whose
    [user_id] is the other's uid.  The collection is not changed. *)
Theorem list_tasks_only_callers (user : User)
    (db : gmap string (gmap string value)) :
  exists l,
    get_user_tasks user db = (db, Return l)
    /\ (forall r, r ∈ l <->
          exists id d, db !! id = Some d
                       /\ d !! "user_id" = Some (VStr (uid user))
                       /\ r = <["id" := VStr id]> d)
    /\ (forall r, r ∈ l -> r !! "user_id" = Some (VStr (uid user)))
    /\ (forall other r, uid other ≠ uid user -> r ∈ l ->
          r !! "user_id" ≠ Some (VStr (uid other)))
    /\ length l
         = size (filter (fun kd : string * gmap string value =>
                           kd.2 !! "user_id" = Some (VStr (uid user))) db)
    /\ ((fun r : gmap string value => r !! "id") <$> l)
         `sublist_of`
       ((fun kd : string * gmap string value => Some (VStr kd.1))
          <$> map_to_list db).
Proof.
  eexists. split; [apply get_user_tasks_run|].
  assert (Hmem : forall r,
    r ∈ (fun kd : string * gmap string value => <["id" := VStr kd.1]> kd.2)
          <$> filter (fun kd : string * gmap string value =>
                        kd.2 !! "user_id" = Some (VStr (uid user)))
                (map_to_list db)
    <-> exists id d, db !! id = Some d
                     /\ d !! "user_id" = Some (VStr (uid user))
                     /\ r = <["id" := VStr id]> d).
  { intros r. rewrite list_elem_of_fmap. split.
    - intros ([id d] & -> & Hin). apply list_elem_of_filter in Hin.
      destruct Hin as [Ho Hin]. apply elem_of_map_to_list in Hin.
      exists id, d. repeat split; assumption.
    - intros (id & d & Hd & Ho & ->). exists (id, d). split; [reflexivity|].
      apply list_elem_of_filter. split; [exact Ho|].
      apply elem_of_map_to_list. exact Hd. }
  assert (Hown : forall r,
    r ∈ (fun kd : string * gmap string value => <["id" := VStr kd.1]> kd.2)
          <$> filter (fun kd : string * gmap string value =>
                        kd.2 !! "user_id" = Some (VStr (uid user)))
                (map_to_list db)
    -> r !! "user_id" = Some (VStr (uid user))).
  { intros r Hr. apply Hmem in Hr. destruct Hr as (id & d & _ & Ho & ->).
    rewrite lookup_insert_ne by discriminate. exact Ho. }
  split; [exact Hmem|]. split; [exact Hown|]. split; [|split].
  - intros other r Hne Hr Hother. rewrite (Hown r Hr) in Hother.
    apply Hne. congruence.
  - rewrite length_fmap, map_filter_alt, <- length_map_to_list.
    symmetry. apply Permutation_length, map_to_list_to_map.
    apply (sublist_NoDup _ ((map_to_list db).*1));
      [apply NoDup_fst_map_to_list|].
    apply fmap_sublist, sublist_filter.
  - rewrite <- list_fmap_compose.
    erewrite (list_fmap_ext _ (fun kd => Some (VStr kd.1))).
    + apply fmap_sublist, sublist_filter.
    + intros i [id d] _. cbn. apply lookup_insert_eq.
Qed.

Lemma list_tasks_only_callers_witness :
  (get_user_tasks Sample.bob Sample.db1).2 = Return []
  /\ exists l, (get_user_tasks Sample.alice Sample.db1).2 = Return l
               /\ forall r, r ∈ l ->
                    r !! "user_id" ≠ Some (VStr (uid Sample.bob)).
Proof.
  split; [vm_compute; reflexivity|].
  destruct (list_tasks_only_callers Sample.alice Sample.db1)
    as (l & Hrun & _ & _ & Hother & _).
  exists l. split; [rewrite Hrun; reflexivity|].
  intros r. apply (Hother Sample.bob). discriminate.
Defined.

(** ** Partial update *)

Lemma data_to_update_title (task : TaskUpdate) :
  data_to_update task !! "title" = VStr <$> upd_title task.
Proof.
  rewrite data_to_update_lookup. rewrite decide_True by reflexivity.
  reflexivity.
Qed.

Lemma data_to_update_description (task : TaskUpdate) :
  data_to_update task !! "description" = VStr <$> upd_description task.
Proof.
  rewrite data_to_update_lookup. rewrite decide_False by discriminate.
  rewrite decide_True by reflexivity. reflexivity.
Qed.

Lemma data_to_update_completed (task : TaskUpdate) :
  data_to_update task !! "completed" = VBool <$> upd_completed task.
Proof.
  rewrite data_to_update_lookup. do 2 rewrite decide_False by discriminate.
  rewrite decide_True by reflexivity. reflexivity.
Qed.

Lemma data_to_update_other (task : TaskUpdate) (k : string) :
  k ≠ "title" -> k ≠ "description" -> k ≠ "completed" ->
  data_to_update task !! k = None.
Proof.
  intros H1 H2 H3. rewrite data_to_update_lookup.
  do 3 rewrite decide_False by assumption. reflexivity.
Qed.

Lemma data_to_update_empty_iff (task : TaskUpdate) :
  data_to_update task = ∅ <-> task = Sample.empty_update.
Proof.
  split.
  - intros He.
    pose proof (data_to_update_title task) as Ht.
    pose proof (data_to_update_description task) as Hds.
    pose proof (data_to_update_completed task) as Hc.
    rewrite He, lookup_empty in Ht, Hds, Hc.
    symmetry in Ht, Hds, Hc. apply fmap_None in Ht, Hds, Hc.
    destruct task as [t ds c]. cbn [upd_title upd_description upd_completed] in *.
    subst. reflexivity.
  - intros ->. apply map_eq. intros k. rewrite lookup_empty.
    destruct (decide (k = "title")) as [->|H1];
      [rewrite data_to_update_title; reflexivity|].
    destruct (decide (k = "description")) as [->|H2];
      [rewrite data_to_update_description; reflexivity|].
    destruct (decide (k = "completed")) as [->|H3];
      [rewrite data_to_update_completed; reflexivity|].
    apply data_to_update_other; assumption.
Qed.

(** C2, at the input where the code departs from it: the owner's update
    with an empty partial object leaves the collection as it was, but the
    store client refuses the empty write, so the request ends in an
    unhandled [ValueError], answered with 500. *)
Theorem update_task_empty_partial_raises :
  update_task "t1" Sample.empty_update Sample.alice Sample.db1
    = (Sample.db1, Raise (ValueError "Cannot update with an empty document."))
  /\ http_status
       (update_task "t1" Sample.empty_update Sample.alice Sample.db1).2 = 500.
Proof. split; vm_compute; reflexivity. Qed.

(** X1: an update by the owner changes exactly the fields its input supplies:
    afterwards each supplied field holds the supplied value, every other
    field of the record and every other record is as before, and with at
    least one field supplied the answer is 200. *)
Theorem update_changes_only_supplied_fields (task_id : string)
    (task : TaskUpdate) (user : User)
    (db : gmap string (gmap string value)) (d : gmap string value) :
  db !! task_id = Some d ->
  d !! "user_id" = Some (VStr (uid user)) ->
  exists d',
    (update_task task_id task user db).1 !! task_id = Some d'
    /\ d' !! "title"
         = match upd_title task with
           | Some t => Some (VStr t)
           | None => d !! "title"
           end
    /\ d' !! "description"
         = match upd_description task with
           | Some t => Some (VStr t)
           | None => d !! "description"
           end
    /\ d' !! "completed"
         = match upd_completed task with
           | Some c => Some (VBool c)
           | None => d !! "completed"
           end
    /\ (forall k, k ≠ "title" -> k ≠ "description" -> k ≠ "completed" ->
          d' !! k = d !! k)
    /\ (forall other, other ≠ task_id ->
          (update_task task_id task user db).1 !! other = db !! other)
    /\ (task ≠ Sample.empty_update ->
          (update_task task_id task user db).2
            = Return {| message := "Task updated successfully";
                        task_id := task_id |}).
Proof.
  intros Hd Ho. rewrite (update_task_owner _ _ _ _ d) by assumption.
  destruct (decide (data_to_update task = ∅)) as [He|Hne]; cbn [fst snd].
  - apply data_to_update_empty_iff in He. subst task.
    exists d. cbn [upd_title upd_description upd_completed Sample.empty_update].
    repeat split; try assumption; try reflexivity.
    intros Hcontra. exfalso. apply Hcontra. reflexivity.
  - exists (data_to_update task ∪ d).
    assert (Hk : forall k, (data_to_update task ∪ d) !! k
                   = match data_to_update task !! k with
                     | Some v => Some v
                     | None => d !! k
                     end).
    { intros k. destruct (data_to_update task !! k) as [v|] eqn:Hv.
      - apply lookup_union_Some_l. exact Hv.
      - apply lookup_union_r. exact Hv. }
    split; [apply lookup_insert_eq|].
    repeat split.
    + rewrite Hk, data_to_update_title. destruct (upd_title task); reflexivity.
    + rewrite Hk, data_to_update_description.
      destruct (upd_description task); reflexivity.
    + rewrite Hk, data_to_update_completed.
      destruct (upd_completed task); reflexivity.
    + intros k H1 H2 H3. rewrite Hk, data_to_update_other by assumption.
      reflexivity.
    + intros other Hother. apply lookup_insert_ne. congruence.
Qed.

Lemma update_changes_only_supplied_fields_witness :
  exists d',
    (update_task "t1" Sample.only_completed Sample.alice Sample.db1).1 !! "t1"
      = Some d'
    /\ d' !! "title" = Some (VStr "A")
    /\ d' !! "description" = Some (VStr "B")
    /\ d' !! "completed" = Some (VBool true).
Proof.
  destruct (update_changes_only_supplied_fields "t1" Sample.only_completed
              Sample.alice Sample.db1 Sample.stored
              sample_db1_lookup sample_stored_owner)
    as (d' & Hd' & Ht & Hds & Hc & _).
  exists d'. repeat split; assumption.
Defined.

(** ** Login and registration *)

Section IdentityProperties.

Variable auth_create_user : string -> string -> outcome string.
Variable sign_in_with_email_and_password :
  string -> string -> outcome (gmap string string).
Variable email_validator : string -> option string.

Lemma authenticate_user_truthy (email password : string)
    (tokens : gmap string string) :
  authenticate_user sign_in_with_email_and_password email password
    = Some tokens ->
  truthy (Some tokens) = true.
Proof.
  unfold authenticate_user.
  destruct (sign_in_with_email_and_password email password) as [user|e];
    [|discriminate].
  destruct (user !! "idToken") as [tok|]; [|discriminate].
  intros H. apply (inj Some) in H. subst tokens. cbn [truthy].
  apply bool_decide_eq_true_2. apply insert_non_empty.
Qed.

Lemma login_user_failure (username password : string) (x : exn) :
  login_user sign_in_with_email_and_password username password = Raise x ->
  x = HTTPException 401 "Login failed".
Proof.
  unfold login_user.
  destruct (truthy _); intros H; [discriminate|]. congruence.
Qed.

(** C7: a login that fails, because the provider rejects the email or the
    password or fails in any other way, gets the one answer 401 "Login
    failed": the provider's error does not show in it, and any two failing
    logins get equal answers. *)
Theorem login_failure_is_uniform :
  (forall username password err,
     sign_in_with_email_and_password username password = Raise err ->
     login_user sign_in_with_email_and_password username password
       = Raise (HTTPException 401 "Login failed"))
  /\ (forall username1 password1 username2 password2 x1 x2,
        login_user sign_in_with_email_and_password username1 password1
          = Raise x1 ->
        login_user sign_in_with_email_and_password username2 password2
          = Raise x2 ->
        x1 = x2
        /\ x1 = HTTPException 401 "Login failed"
        /\ http_status
             (login_user sign_in_with_email_and_password username1 password1)
           = 401).
Proof.
  split.
  - intros username password err Herr.
    unfold login_user, authenticate_user. rewrite Herr. reflexivity.
  - intros u1 p1 u2 p2 x1 x2 H1 H2.
    pose proof (login_user_failure _ _ _ H1) as E1.
    pose proof (login_user_failure _ _ _ H2) as E2.
    subst. rewrite H1. repeat split.
Qed.

(** C8, as the code has it: a registration whose body validates and whose
    account creation fails is answered with 400; a body whose email does
    not validate, as one without an @-sign, never reaches the handler and
    is answered with 422; a failing registration gets no other status. *)
Theorem register_failure_is_400_or_422 (body : RegistrationBody) :
  (forall e,
     post_register auth_create_user email_validator body = Raise e ->
     (EmailStr_validate email_validator (body_email body) = None
      /\ http_status (post_register auth_create_user email_validator body)
         = 422)
     \/ (exists em err,
           EmailStr_validate email_validator (body_email body) = Some em
           /\ auth_create_user em (body_password body) = Raise err
           /\ e = HTTPException 400 (str_exn err)
           /\ http_status (post_register auth_create_user email_validator body)
              = 400))
  /\ (has_at_sign (body_email body) = false ->
      http_status (post_register auth_create_user email_validator body) = 422)
  /\ (forall user e,
        register_user auth_create_user user = Raise e ->
        http_status (register_user auth_create_user user) = 400).
Proof.
  split; [|split].
  - intros e. unfold post_register.
    destruct (EmailStr_validate email_validator (body_email body))
      as [em|] eqn:Hv.
    + unfold register_user, create_user. cbn [email password].
      destruct (auth_create_user em (body_password body)) as [u|err] eqn:Hc;
        [discriminate|].
      intros H. right. exists em, err.
      split; [reflexivity|]. split; [exact Hc|]. split; [congruence|].
      reflexivity.
    + intros _. left. split; reflexivity.
  - intros Hat. unfold post_register, EmailStr_validate. rewrite Hat.
    reflexivity.
  - intros user e. unfold register_user.
    destruct (create_user auth_create_user (email user) (password user));
      [discriminate|]. reflexivity.
Qed.

End IdentityProperties.

Lemma login_failure_is_uniform_witness :
  login_user (fun _ _ => Raise (ProviderError "INVALID_PASSWORD"))
    "a@example.com" "wrong"
  = Raise (HTTPException 401 "Login failed").
Proof.
  apply (proj1 (login_failure_is_uniform
                  (fun _ _ => Raise (ProviderError "INVALID_PASSWORD")))
           "a@example.com" "wrong" (ProviderError "INVALID_PASSWORD")).
  reflexivity.
Defined.

(** C8 as stated fails: a registration with the malformed email
    ["not-an-email"] fails, and its status is 422, not 400. *)
Lemma register_malformed_email_is_422 :
  post_register (fun _ _ => Return "uid-1") (fun s => Some s)
    {| body_email := "not-an-email"; body_password := "secret1" |}
  = Raise (RequestValidationError "value is not a valid email address")
  /\ http_status
       (post_register (fun _ _ => Return "uid-1") (fun s => Some s)
          {| body_email := "not-an-email"; body_password := "secret1" |})
     = 422
  /\ http_status
       (post_register (fun _ _ => Return "uid-1") (fun s => Some s)
          {| body_email := "not-an-email"; body_password := "secret1" |})
     ≠ 400.
Proof. repeat split. discriminate. Qed.

Lemma register_failure_is_400_or_422_witness :
  http_status
    (post_register (fun _ _ => Raise (ProviderError "EMAIL_EXISTS"))
       (fun s => Some s)
       {| body_email := "a@example.com"; body_password := "secret1" |})
  = 400
  /\ http_status
       (post_register (fun _ _ => Raise (ProviderError "EMAIL_EXISTS"))
          (fun s => Some s)
          {| body_email := "not-an-email"; body_password := "secret1" |})
     = 422.
Proof.
  split.
  - destruct (proj1 (register_failure_is_400_or_422
                       (fun _ _ => Raise (ProviderError "EMAIL_EXISTS"))
                       (fun s => Some s)
                       {| body_email := "a@example.com";
                          body_password := "secret1" |})
                (HTTPException 400 "EMAIL_EXISTS") eq_refl)
      as [[Hnone _] | (em & err & _ & _ & _ & Hst)].
    + discriminate Hnone.
    + exact Hst.
  - apply (proj1 (proj2 (register_failure_is_400_or_422
                           (fun _ _ => Raise (ProviderError "EMAIL_EXISTS"))
                           (fun s => Some s)
                           {| body_email := "not-an-email";
                              body_password := "secret1" |}))).
    reflexivity.
Defined.

(** ** Further properties of the task handlers *)

Lemma delete_task_store (task_id : string) (user : User)
    (db : gmap string (gmap string value)) :
  (delete_task task_id user db).1 = db
  \/ exists d, db !! task_id = Some d
       /\ d !! "user_id" = Some (VStr (uid user))
       /\ delete_task task_id user db =
            (delete task_id db,
             Return {| message := "Task deleted successfully";
                       task_id := task_id |}).
Proof.
  destruct (delete_task task_id user db).2 as [a|e] eqn:Hout.
  2: { left. exact (run_op_error_unchanged OpDelete _ _ _ e Hout). }
  destruct (db !! task_id) as [d|] eqn:Hd.
  2: { pose proof (run_op_missing OpDelete task_id user db Hd) as H.
       cbn [run_op] in H. rewrite H in Hout. discriminate. }
  destruct (d !! "user_id") as [o|] eqn:Ho.
  2: { pose proof (run_op_no_owner OpDelete task_id user db d Hd Ho) as H.
       cbn [run_op] in H. rewrite H in Hout. discriminate. }
  destruct (decide (o = VStr (uid user))) as [->|Hne].
  2: { pose proof (run_op_forbidden OpDelete task_id user db d o Hd Ho Hne)
         as H.
       cbn [run_op] in H. rewrite H in Hout. discriminate. }
  right. exists d. rewrite (delete_task_owner _ _ _ d) by assumption.
  repeat split; assumption || reflexivity.
Qed.

(** What any request does to the collection: nothing, or a write to the
    one document it addresses; and a write other than a creation is to a
    document of the caller. *)
Lemma handle_store (r : request) (db : gmap string (gmap string value)) :
  (handle r db).1 = db
  \/ (exists d', (handle r db).1 = <[request_target r := d']> db
                 /\ (is_create r = false ->
                     exists d, db !! request_target r = Some d
                       /\ d !! "user_id" = Some (VStr (uid (request_user r)))))
  \/ ((handle r db).1 = delete (request_target r) db
      /\ exists d, db !! request_target r = Some d
           /\ d !! "user_id" = Some (VStr (uid (request_user r)))).
Proof.
  destruct r as [a t u | tid task user | tid user | tid user];
    cbn [handle request_target request_user is_create].
  - right. left. rewrite create_task_store. cbn [fst].
    eexists. split; [reflexivity | discriminate].
  - destruct (update_task_store tid task user db)
      as [Hsame | (d & Hd & Ho & _ & Hrun)]; [left; exact Hsame|].
    right. left. rewrite Hrun. cbn [fst]. eexists. split; [reflexivity|].
    intros _. exists d. split; assumption.
  - destruct (delete_task_store tid user db)
      as [Hsame | (d & Hd & Ho & Hrun)]; [left; exact Hsame|].
    right. right. rewrite Hrun. cbn [fst]. split; [reflexivity|].
    exists d. split; assumption.
  - destruct (complete_task_store tid user db)
      as [Hsame | (d & Hd & Ho & Hrun)]; [left; exact Hsame|].
    right. left. rewrite Hrun. cbn [fst]. eexists. split; [reflexivity|].
    intros _. exists d. split; assumption.
Qed.

(** X2: a request changes no document but the one it addresses: every
    document under another id is after the request what it was before,
    whatever the request and whoever sends it. *)
Theorem request_touches_only_its_target (r : request)
    (db : gmap string (gmap string value)) (other : string) :
  other ≠ request_target r ->
  (handle r db).1 !! other = db !! other.
Proof.
  intros Hne.
  destruct (handle_store r db) as [Hsame | [(d' & Hrun & _) | [Hrun _]]];
    rewrite ?Hsame, ?Hrun.
  - reflexivity.
  - apply lookup_insert_ne. congruence.
  - apply lookup_delete_ne. congruence.
Qed.

Lemma request_touches_only_its_target_witness :
  (handle (ReqDelete "t1" Sample.alice)
     (create_task "t2" Fixtures.chores Sample.bob Sample.db1).1).1 !! "t2"
  = (create_task "t2" Fixtures.chores Sample.bob Sample.db1).1 !! "t2".
Proof.
  apply (request_touches_only_its_target (ReqDelete "t1" Sample.alice)).
  discriminate.
Defined.

Lemma foreign_request_keeps (owner doc_id : string) (r : request)
    (db : gmap string (gmap string value)) (d : gmap string value) :
  foreign_to owner doc_id r = true ->
  db !! doc_id = Some d ->
  d !! "user_id" = Some (VStr owner) ->
  (handle r db).1 !! doc_id = Some d.
Proof.
  unfold foreign_to. intros Hf Hd Ho.
  apply andb_prop in Hf. destruct Hf as [Hu Hc].
  apply bool_decide_eq_true_1 in Hu.
  destruct (decide (doc_id = request_target r)) as [Heq|Hne].
  2: { destruct (handle_store r db) as [Hsame | [(d' & Hrun & _) | [Hrun _]]];
         rewrite ?Hsame, ?Hrun; [assumption | |].
       - rewrite lookup_insert_ne by congruence. assumption.
       - rewrite lookup_delete_ne by congruence. assumption. }
  assert (Hnc : is_create r = false).
  { destruct (is_create r); [|reflexivity].
    rewrite bool_decide_eq_true_2 in Hc by congruence. discriminate. }
  assert (Hmine : forall d0, db !! request_target r = Some d0 ->
            d0 !! "user_id" = Some (VStr (uid (request_user r))) -> False).
  { intros d0 Hd0 Ho0. rewrite <- Heq, Hd in Hd0. apply (inj Some) in Hd0.
    subst d0. rewrite Ho in Ho0. apply Hu. congruence. }
  destruct (handle_store r db)
    as [Hsame | [(d' & Hrun & Hown) | [Hrun (d0 & Hd0 & Ho0)]]].
  - rewrite Hsame. assumption.
  - destruct (Hown Hnc) as (d0 & Hd0 & Ho0). destruct (Hmine d0 Hd0 Ho0).
  - destruct (Hmine d0 Hd0 Ho0).
Qed.

(** X3: no run of requests by other users changes a user's task: if every
    request is sent by somebody other than the owner and none creates a
    document under the task's id, the task is afterwards exactly the
    document it was. *)
Theorem others_cannot_change_a_task (owner doc_id : string)
    (rs : list request) (db : gmap string (gmap string value))
    (d : gmap string value) :
  forallb (foreign_to owner doc_id) rs = true ->
  db !! doc_id = Some d ->
  d !! "user_id" = Some (VStr owner) ->
  serve rs db !! doc_id = Some d.
Proof.
  revert db. induction rs as [|r rs IH]; intros db Hall Hd Ho; cbn [serve].
  - assumption.
  - cbn [forallb] in Hall. apply andb_prop in Hall. destruct Hall as [Hr Hrs].
    apply IH; [assumption | | assumption].
    exact (foreign_request_keeps owner doc_id r db d Hr Hd Ho).
Qed.

Lemma others_cannot_change_a_task_witness :
  serve [ReqUpdate "t1" Fixtures.retitle Sample.bob;
         ReqComplete "t1" Fixtures.carol;
         ReqCreate "t2" Fixtures.chores Sample.bob;
         ReqDelete "t1" Sample.bob]
        Sample.db1 !! "t1" = Some Sample.stored.
Proof.
  apply (others_cannot_change_a_task "u1" "t1"
           [ReqUpdate "t1" Fixtures.retitle Sample.bob;
            ReqComplete "t1" Fixtures.carol;
            ReqCreate "t2" Fixtures.chores Sample.bob;
            ReqDelete "t1" Sample.bob]
           Sample.db1 Sample.stored).
  - vm_compute. reflexivity.
  - exact sample_db1_lookup.
  - exact sample_stored_owner.
Defined.

(** X4: update and complete are idempotent: the same request sent a second
    time gets the answer of the first and leaves the collection as the
    first left it, whether the first succeeded or failed. *)
Theorem update_and_complete_idempotent (task_id : string) (task : TaskUpdate)
    (user : User) (db : gmap string (gmap string value)) :
  update_task task_id task user (update_task task_id task user db).1
    = update_task task_id task user db
  /\ complete_task task_id user (complete_task task_id user db).1
       = complete_task task_id user db.
Proof.
  split.
  - destruct (update_task_store task_id task user db)
      as [Hsame | (d & Hd & Ho & Hne & Hrun)].
    + rewrite Hsame. reflexivity.
    + rewrite Hrun. cbn [fst].
      rewrite (update_task_owner _ _ _ _ (data_to_update task ∪ d)).
      * destruct (decide (data_to_update task = ∅)); [contradiction|].
        rewrite insert_insert_eq, map_union_assoc, map_union_idemp.
        reflexivity.
      * apply lookup_insert_eq.
      * rewrite lookup_union_r by apply data_to_update_user_id. exact Ho.
  - destruct (complete_task_store task_id user db)
      as [Hsame | (d & Hd & Ho & Hrun)].
    + rewrite Hsame. reflexivity.
    + rewrite Hrun. cbn [fst].
      rewrite (complete_task_owner _ _ _ ({[ "completed" := VBool true ]} ∪ d)).
      * rewrite insert_insert_eq, map_union_assoc, map_union_idemp.
        reflexivity.
      * apply lookup_insert_eq.
      * rewrite lookup_union_r by (apply lookup_singleton_ne; discriminate).
        exact Ho.
Qed.

(** X5: on a collection that only this API has written to, update, delete
    and complete answer 404 exactly for a missing record, 403 exactly for
    a record of another user, and otherwise 200, but for the update that
    supplies no field, which is answered 500.  No such request ends in a
    [KeyError]. *)
Theorem record_op_status_on_reachable (op : record_op) (task_id : string)
    (user : User) (db : gmap string (gmap string value)) :
  reachable db ->
  (db !! task_id = None
   /\ http_status (run_op op task_id user db).2 = 404)
  \/ (exists d u, db !! task_id = Some d
        /\ d !! "user_id" = Some (VStr u) /\ u ≠ uid user
        /\ http_status (run_op op task_id user db).2 = 403)
  \/ (exists d, db !! task_id = Some d
        /\ d !! "user_id" = Some (VStr (uid user))
        /\ ((op = OpUpdate Sample.empty_update
             /\ http_status (run_op op task_id user db).2 = 500)
            \/ (op ≠ OpUpdate Sample.empty_update
                /\ http_status (run_op op task_id user db).2 = 200))).
Proof.
  intros Hreach.
  destruct (db !! task_id) as [d|] eqn:Hd.
  2: { left. rewrite run_op_missing by assumption. split; reflexivity. }
  right.
  destruct (reachable_records_owned db Hreach task_id d Hd) as [u Ho].
  destruct (decide (u = uid user)) as [->|Hne].
  2: { left. exists d, u.
       rewrite (run_op_forbidden _ _ _ _ d (VStr u)) by (congruence || assumption).
       repeat split; assumption || reflexivity. }
  right. exists d. split; [reflexivity|]. split; [assumption|].
  destruct op as [task| |]; cbn [run_op].
  - rewrite (update_task_owner _ _ _ _ d) by assumption.
    destruct (decide (data_to_update task = ∅)) as [He|Hne].
    + apply data_to_update_empty_iff in He. subst task.
      left. split; reflexivity.
    + right. split; [|reflexivity].
      intros Heq. apply Hne. apply data_to_update_empty_iff. congruence.
  - rewrite (delete_task_owner _ _ _ d) by assumption.
    right. split; [discriminate | reflexivity].
  - rewrite (complete_task_owner _ _ _ d) by assumption.
    right. split; [discriminate | reflexivity].
Qed.

Lemma sample_db1_reachable : reachable Sample.db1.
Proof.
  exists [ReqCreate "t1" Sample.groceries Sample.alice]. reflexivity.
Qed.

Lemma record_op_status_on_reachable_witness :
  http_status (run_op OpComplete "t1" Sample.bob Sample.db1).2 = 403.
Proof.
  destruct (record_op_status_on_reachable OpComplete "t1" Sample.bob
              Sample.db1 sample_db1_reachable)
    as [[Hnone _] | [(d & u & _ & _ & _ & Hst) | (d & Hd & Ho & _)]].
  - rewrite sample_db1_lookup in Hnone. discriminate.
  - exact Hst.
  - rewrite sample_db1_lookup in Hd. apply (inj Some) in Hd. subst d.
    rewrite sample_stored_owner in Ho. discriminate.
Defined.

(** ** The shape of stored tasks and the listing *)

Lemma union_lookup_cases (upd d : gmap string value) (k : string) :
  (upd ∪ d) !! k = match upd !! k with Some v => Some v | None => d !! k end.
Proof.
  destruct (upd !! k) as [v|] eqn:Hv.
  - apply lookup_union_Some_l. exact Hv.
  - apply lookup_union_r. exact Hv.
Qed.

Lemma stored_task_shape_fields (d : gmap string value) :
  stored_task_shape d = true <->
  is_str (d !! "title") = true /\ is_str (d !! "description") = true
  /\ is_bool (d !! "completed") = true /\ is_str (d !! "user_id") = true.
Proof.
  unfold stored_task_shape. rewrite !andb_true_iff. tauto.
Qed.

Lemma data_to_update_keeps_shape (task : TaskUpdate) (d : gmap string value) :
  stored_task_shape d = true ->
  stored_task_shape (data_to_update task ∪ d) = true.
Proof.
  rewrite !stored_task_shape_fields. intros (Ht & Hds & Hc & Hu).
  rewrite !union_lookup_cases, data_to_update_title,
    data_to_update_description, data_to_update_completed,
    data_to_update_user_id.
  destruct (upd_title task), (upd_description task), (upd_completed task);
    repeat split; assumption || reflexivity.
Qed.

Lemma completed_keeps_shape (d : gmap string value) :
  stored_task_shape d = true ->
  stored_task_shape ({[ "completed" := VBool true ]} ∪ d) = true.
Proof.
  rewrite !stored_task_shape_fields. intros (Ht & Hds & Hc & Hu).
  rewrite !union_lookup_cases.
  rewrite lookup_singleton_eq.
  rewrite !lookup_singleton_ne by discriminate.
  repeat split; assumption || reflexivity.
Qed.

Lemma created_has_shape (task : Task) (user : User) :
  stored_task_shape (<["user_id" := VStr (uid user)]> (Task_dict task)) = true.
Proof.
  apply stored_task_shape_fields. unfold Task_dict.
  repeat split; simplify_map_eq; reflexivity.
Qed.

Lemma handle_keeps_shape (r : request)
    (db : gmap string (gmap string value)) :
  (forall id d, db !! id = Some d -> stored_task_shape d = true) ->
  forall id d, (handle r db).1 !! id = Some d -> stored_task_shape d = true.
Proof.
  intros Hinv id d.
  destruct r as [a t u | tid task user | tid user | tid user]; cbn [handle].
  - rewrite create_task_store. cbn [fst].
    destruct (decide (id = a)) as [->|Hne].
    + rewrite lookup_insert_eq. intros H. apply (inj Some) in H. subst d.
      apply created_has_shape.
    + rewrite lookup_insert_ne by congruence. apply Hinv.
  - destruct (update_task_store tid task user db)
      as [Hsame | (d0 & Hd0 & _ & _ & Hrun)];
      [rewrite Hsame; apply Hinv|].
    rewrite Hrun. cbn [fst].
    destruct (decide (id = tid)) as [->|Hne].
    + rewrite lookup_insert_eq. intros H. apply (inj Some) in H. subst d.
      apply data_to_update_keeps_shape. exact (Hinv tid d0 Hd0).
    + rewrite lookup_insert_ne by congruence. apply Hinv.
  - destruct (delete_task_store tid user db)
      as [Hsame | (d0 & Hd0 & _ & Hrun)];
      [rewrite Hsame; apply Hinv|].
    rewrite Hrun. cbn [fst]. intros H. apply lookup_delete_Some in H.
    exact (Hinv id d (proj2 H)).
  - destruct (complete_task_store tid user db)
      as [Hsame | (d0 & Hd0 & _ & Hrun)];
      [rewrite Hsame; apply Hinv|].
    rewrite Hrun. cbn [fst].
    destruct (decide (id = tid)) as [->|Hne].
    + rewrite lookup_insert_eq. intros H. apply (inj Some) in H. subst d.
      apply completed_keeps_shape. exact (Hinv tid d0 Hd0).
    + rewrite lookup_insert_ne by congruence. apply Hinv.
Qed.

Lemma serve_keeps_shape (rs : list request)
    (db : gmap string (gmap string value)) :
  (forall id d, db !! id = Some d -> stored_task_shape d = true) ->
  forall id d, serve rs db !! id = Some d -> stored_task_shape d = true.
Proof.
  revert db. induction rs as [|r rs IH]; intros db Hinv; cbn [serve].
  - exact Hinv.
  - apply IH. apply handle_keeps_shape. exact Hinv.
Qed.

Lemma get_user_tasks_elem (user : User)
    (db : gmap string (gmap string value)) (l : list (gmap string value))
    (r : gmap string value) :
  (get_user_tasks user db).2 = Return l ->
  r ∈ l <->
  exists id d, db !! id = Some d
               /\ d !! "user_id" = Some (VStr (uid user))
               /\ r = <["id" := VStr id]> d.
Proof.
  rewrite get_user_tasks_run. cbn [snd]. intros Hl.
  injection Hl as <-. rewrite list_elem_of_fmap. split.
  - intros ([id d] & -> & Hin). apply list_elem_of_filter in Hin.
    destruct Hin as [Ho Hin]. apply elem_of_map_to_list in Hin.
    exists id, d. repeat split; assumption.
  - intros (id & d & Hd & Ho & ->). exists (id, d). split; [reflexivity|].
    apply list_elem_of_filter. split; [exact Ho|].
    apply elem_of_map_to_list. exact Hd.
Qed.

(** X6: on a collection that only this API has written to, every stored
    document holds a string [title], a string [description], a boolean
    [completed] and a string [user_id], and so every record that list-tasks
    returns validates against its response model [TaskInDb]. *)
Theorem listing_validates_on_reachable (user : User)
    (db : gmap string (gmap string value)) :
  reachable db ->
  (forall id d, db !! id = Some d -> stored_task_shape d = true)
  /\ exists l, (get_user_tasks user db).2 = Return l
       /\ Forall (fun r => TaskInDb_validate r = true) l.
Proof.
  intros [rs <-].
  assert (Hshape : forall id d, serve rs ∅ !! id = Some d ->
                                stored_task_shape d = true).
  { apply serve_keeps_shape. intros id d Hd.
    rewrite lookup_empty in Hd. discriminate. }
  split; [exact Hshape|].
  eexists. split; [rewrite get_user_tasks_run; reflexivity|].
  apply Forall_forall. intros r Hr.
  apply (get_user_tasks_elem user (serve rs ∅) _ r) in Hr;
    [|rewrite get_user_tasks_run; reflexivity].
  destruct Hr as (id & d & Hd & _ & ->).
  apply Hshape, stored_task_shape_fields in Hd.
  destruct Hd as (Ht & Hds & Hc & Hu).
  unfold TaskInDb_validate.
  rewrite lookup_insert_eq. rewrite !lookup_insert_ne by discriminate.
  rewrite Ht, Hds, Hc, Hu. reflexivity.
Qed.

Lemma listing_validates_on_reachable_witness :
  exists l, (get_user_tasks Sample.alice Sample.db1).2 = Return l
            /\ Forall (fun r => TaskInDb_validate r = true) l.
Proof.
  exact (proj2 (listing_validates_on_reachable Sample.alice Sample.db1
                  sample_db1_reachable)).
Defined.

Lemma get_user_tasks_returns (user : User)
    (db : gmap string (gmap string value)) :
  exists l, (get_user_tasks user db).2 = Return l.
Proof. eexists. rewrite get_user_tasks_run. reflexivity. Qed.

Lemma listed_id (id : string) (d : gmap string value) :
  (<["id" := VStr id]> d) !! "id" = Some (VStr id).
Proof. apply lookup_insert_eq. Qed.

(** X7: a task just created shows in its creator's list, with the fields
    of the request, the creator's uid as [user_id] and the generated id as
    [id]; and the list of any other user holds no record with that id. *)
Theorem created_task_is_listed (auto_id : string) (task : Task) (user : User)
    (db : gmap string (gmap string value)) :
  exists l r,
    (get_user_tasks user (create_task auto_id task user db).1).2 = Return l
    /\ r ∈ l
    /\ r !! "id" = Some (VStr auto_id)
    /\ r !! "title" = Some (VStr (title task))
    /\ r !! "description" = Some (VStr (description task))
    /\ r !! "completed" = Some (VBool (completed task))
    /\ r !! "user_id" = Some (VStr (uid user))
    /\ (forall other l' r',
          uid other ≠ uid user ->
          (get_user_tasks other (create_task auto_id task user db).1).2
            = Return l' ->
          r' ∈ l' ->
          r' !! "id" ≠ Some (VStr auto_id)).
Proof.
  destruct (get_user_tasks_returns user (create_task auto_id task user db).1)
    as [l Hl].
  exists l,
    (<["id" := VStr auto_id]>
       (<["user_id" := VStr (uid user)]> (Task_dict task))).
  assert (Hnew : (create_task auto_id task user db).1 !! auto_id
                 = Some (<["user_id" := VStr (uid user)]> (Task_dict task))).
  { rewrite create_task_store. cbn [fst]. apply lookup_insert_eq. }
  split; [exact Hl|]. split.
  { apply (get_user_tasks_elem user _ l _ Hl).
    exists auto_id, (<["user_id" := VStr (uid user)]> (Task_dict task)).
    split; [exact Hnew|]. split; [apply lookup_insert_eq | reflexivity]. }
  unfold Task_dict.
  repeat split; try (simplify_map_eq; reflexivity).
  intros other l' r' Hne Hl' Hr' Hid.
  apply (get_user_tasks_elem other _ l' r' Hl') in Hr'.
  destruct Hr' as (id & d & Hd & Ho & ->).
  rewrite listed_id in Hid. assert (id = auto_id) as -> by congruence.
  rewrite Hnew in Hd. apply (inj Some) in Hd. subst d.
  rewrite lookup_insert_eq in Ho. apply Hne. congruence.
Qed.

Lemma created_task_is_listed_witness :
  exists l r,
    (get_user_tasks Sample.bob
       (create_task "t2" Fixtures.chores Sample.bob Sample.db1).1).2 = Return l
    /\ r ∈ l
    /\ r !! "id" = Some (VStr "t2")
    /\ r !! "title" = Some (VStr "C").
Proof.
  destruct (created_task_is_listed "t2" Fixtures.chores Sample.bob Sample.db1)
    as (l & r & Hl & Hr & Hid & Ht & _).
  exists l, r. repeat split; assumption.
Defined.

(** X8: after its owner has deleted a task, the owner's list is the list
    from before without the record of that id: nothing else leaves the
    list and nothing enters it. *)
Theorem deleted_task_leaves_the_list (task_id : string) (user : User)
    (db : gmap string (gmap string value)) (d : gmap string value) :
  db !! task_id = Some d ->
  d !! "user_id" = Some (VStr (uid user)) ->
  exists before after,
    (get_user_tasks user db).2 = Return before
    /\ (get_user_tasks user (delete_task task_id user db).1).2 = Return after
    /\ (exists r, r ∈ before /\ r !! "id" = Some (VStr task_id))
    /\ (forall r, r ∈ after <->
                  r ∈ before /\ r !! "id" ≠ Some (VStr task_id)).
Proof.
  intros Hd Ho.
  destruct (get_user_tasks_returns user db) as [before Hb].
  destruct (get_user_tasks_returns user (delete_task task_id user db).1)
    as [after Ha].
  exists before, after. split; [exact Hb|]. split; [exact Ha|]. split.
  { exists (<["id" := VStr task_id]> d). split; [|apply listed_id].
    apply (get_user_tasks_elem user db before _ Hb).
    exists task_id, d. repeat split; assumption. }
  intros r.
  rewrite (get_user_tasks_elem user _ after r Ha).
  rewrite (get_user_tasks_elem user db before r Hb).
  rewrite (delete_task_owner _ _ _ d) by assumption. cbn [fst].
  split.
  - intros (id & d0 & Hd0 & Ho0 & ->).
    apply lookup_delete_Some in Hd0. destruct Hd0 as [Hne Hd0].
    split; [exists id, d0; repeat split; assumption|].
    rewrite listed_id. congruence.
  - intros [(id & d0 & Hd0 & Ho0 & ->) Hid].
    rewrite listed_id in Hid.
    exists id, d0. split; [|split; [assumption | reflexivity]].
    apply lookup_delete_Some. split; [congruence | assumption].
Qed.

Lemma deleted_task_leaves_the_list_witness :
  exists before after,
    (get_user_tasks Sample.alice Sample.db1).2 = Return before
    /\ (get_user_tasks Sample.alice
          (delete_task "t1" Sample.alice Sample.db1).1).2 = Return after
    /\ (forall r, r ∈ after <->
                  r ∈ before /\ r !! "id" ≠ Some (VStr "t1")).
Proof.
  destruct (deleted_task_leaves_the_list "t1" Sample.alice Sample.db1
              Sample.stored sample_db1_lookup sample_stored_owner)
    as (before & after & Hb & Ha & _ & Hiff).
  exists before, after. split; [exact Hb|]. split; [exact Ha | exact Hiff].
Defined.

(** ** Authentication, login and registration, further *)

(** X9: a request whose token [get_current_user] rejects is answered 401,
    with a detail that tells an expired token from an invalid one and from
    any other failure; the handler behind the dependency does not run, so
    the collection is untouched and the answer is the same whether or not
    the addressed record exists.  With a verified token the handler runs
    with the verified identity. *)
Theorem rejected_token_is_401_before_handler {A : Type}
    (verify_id_token : string -> verify_result) (h : User -> Handler A)
    (authorization : string) (db : gmap string (gmap string value)) :
  (forall f,
     verify_id_token authorization = Rejected f ->
     (Depends_current_user verify_id_token h authorization db).1 = db
     /\ http_status (Depends_current_user verify_id_token h authorization db).2
        = 401
     /\ (Depends_current_user verify_id_token h authorization db).2
        = Raise (HTTPException 401
                   match f with
                   | ExpiredIdTokenError => "Expired ID token"
                   | InvalidIdTokenError => "Invalid ID token"
                   | OtherVerifyError =>
                       "Invalid or missing Authorization header"
                   end))
  /\ (forall user,
        verify_id_token authorization = Verified user ->
        Depends_current_user verify_id_token h authorization db = h user db).
Proof.
  unfold Depends_current_user, get_current_user. split.
  - intros f Hf. rewrite Hf. destruct f; repeat split.
  - intros user Hu. rewrite Hu. reflexivity.
Qed.

Lemma rejected_token_is_401_before_handler_witness :
  (Depends_current_user Fixtures.verify_one
     (delete_task "t1") "tok-old" Sample.db1).1 = Sample.db1
  /\ http_status
       (Depends_current_user Fixtures.verify_one
          (delete_task "t1") "tok-old" Sample.db1).2 = 401
  /\ (Depends_current_user Fixtures.verify_one
        (delete_task "t1") "tok-old" Sample.db1).2
     = Raise (HTTPException 401 "Expired ID token").
Proof.
  apply (proj1 (rejected_token_is_401_before_handler Fixtures.verify_one
                  (delete_task "t1") "tok-old" Sample.db1)
           ExpiredIdTokenError).
  reflexivity.
Defined.

(** X10: login succeeds exactly when the provider returns a user dict that
    holds an [idToken]; the answer then carries that token as
    [access_token] with [token_type] "bearer".  A user dict without
    [idToken] is a failed login like any other. *)
Theorem login_succeeds_iff_id_token
    (sign_in_with_email_and_password :
       string -> string -> outcome (gmap string string))
    (username password : string) :
  (forall r,
     login_user sign_in_with_email_and_password username password = Return r
     <-> exists user tok,
           sign_in_with_email_and_password username password = Return user
           /\ user !! "idToken" = Some tok
           /\ r = Some {[ "access_token" := tok; "token_type" := "bearer" ]})
  /\ (forall user,
        sign_in_with_email_and_password username password = Return user ->
        user !! "idToken" = None ->
        login_user sign_in_with_email_and_password username password
          = Raise (HTTPException 401 "Login failed")).
Proof.
  split.
  - intros r. unfold login_user. split.
    + destruct (authenticate_user _ username password) as [tokens|] eqn:Hauth;
        cbn [truthy]; [|discriminate].
      pose proof (authenticate_user_truthy _ _ _ _ Hauth) as Ht.
      cbn [truthy] in Ht. rewrite Ht. intros Hr.
      assert (r = Some tokens) as -> by congruence.
      unfold authenticate_user in Hauth.
      destruct (sign_in_with_email_and_password username password)
        as [user|e]; [|discriminate].
      destruct (user !! "idToken") as [tok|] eqn:Htok; [|discriminate].
      exists user, tok. repeat split; [assumption | congruence].
    + intros (user & tok & Hs & Htok & ->).
      assert (Hauth : authenticate_user sign_in_with_email_and_password
                        username password
                      = Some {[ "access_token" := tok;
                                "token_type" := "bearer" ]}).
      { unfold authenticate_user. rewrite Hs, Htok. reflexivity. }
      rewrite Hauth.
      rewrite (authenticate_user_truthy _ _ _ _ Hauth). reflexivity.
  - intros user Hs Htok. unfold login_user, authenticate_user.
    rewrite Hs, Htok. reflexivity.
Qed.

Lemma login_succeeds_iff_id_token_witness :
  login_user (fun _ _ => Return {[ "idToken" := "jwt"; "localId" := "u1" ]})
    "a@example.com" "pw"
  = Return (Some {[ "access_token" := "jwt"; "token_type" := "bearer" ]}).
Proof.
  apply (proj1 (login_succeeds_iff_id_token
                  (fun _ _ => Return {[ "idToken" := "jwt"; "localId" := "u1" ]})
                  "a@example.com" "pw")).
  exists {[ "idToken" := "jwt"; "localId" := "u1" ]}, "jwt".
  repeat split.
Defined.

(** X11: a registration succeeds exactly when the email validates and the
    provider creates the account for the validated address and the
    password sent; the answer then carries the uid the provider gave. *)
Theorem register_succeeds_iff_created
    (auth_create_user : string -> string -> outcome string)
    (email_validator : string -> option string)
    (body : RegistrationBody) (res : RegResModel) :
  post_register auth_create_user email_validator body = Return res
  <-> exists em user_uid,
        EmailStr_validate email_validator (body_email body) = Some em
        /\ auth_create_user em (body_password body) = Return user_uid
        /\ res = {| reg_message := "User registered successfully";
                    user_uid := user_uid |}.
Proof.
  unfold post_register. split.
  - destruct (EmailStr_validate email_validator (body_email body))
      as [em|]; [|discriminate].
    unfold register_user, create_user. cbn [email password].
    destruct (auth_create_user em (body_password body)) as [u|err] eqn:Hc;
      [|discriminate].
    intros H. exists em, u.
    split; [reflexivity|]. split; [exact Hc | congruence].
  - intros (em & u & Hv & Hc & ->). rewrite Hv.
    unfold register_user, create_user. cbn [email password].
    rewrite Hc. reflexivity.
Qed.

(** ** The TRACE endpoint *)

Lemma lower_Content_Type : lower "Content-Type" = "content-type".
Proof. reflexivity. Qed.

Lemma echo_status (items : list (string * string)) (response : Response) :
  status_code
    (foldl (fun resp kv => set_header kv.1 kv.2 resp) response items)
  = status_code response.
Proof.
  revert response. induction items as [|kv items IH]; intros response;
    cbn [foldl]; [reflexivity|].
  rewrite IH. reflexivity.
Qed.

Lemma echo_headers_absent (items : list (string * string))
    (response : Response) (name : string) :
  (forall kv, kv ∈ items -> lower kv.1 ≠ name) ->
  headers (foldl (fun resp kv => set_header kv.1 kv.2 resp) response items)
    !! name
  = headers response !! name.
Proof.
  revert response. induction items as [|kv items IH]; intros response Hno;
    cbn [foldl]; [reflexivity|].
  rewrite IH.
  - cbn [set_header headers]. apply lookup_insert_ne.
    apply Hno. apply list_elem_of_here.
  - intros kv' Hin. apply Hno. apply list_elem_of_further. exact Hin.
Qed.

Lemma echo_headers_last (pre post : list (string * string)) (k v : string)
    (response : Response) :
  (forall kv, kv ∈ post -> lower kv.1 ≠ lower k) ->
  headers (foldl (fun resp kv => set_header kv.1 kv.2 resp) response
             (pre ++ (k, v) :: post))
    !! lower k
  = Some v.
Proof.
  intros Hno. rewrite foldl_app. cbn [foldl].
  rewrite echo_headers_absent by exact Hno.
  cbn [set_header headers fst snd]. apply lookup_insert_eq.
Qed.

Lemma get_trace_response (decode_utf8 : list Byte.byte -> option string)
    (request_headers : list (string * string)) (request_body : list Byte.byte)
    (response : Response) :
  (get_trace decode_utf8 request_headers request_body response).1
  = {| headers :=
         <["content-type" := "message/http"]>
           (headers (foldl (fun resp kv => set_header kv.1 kv.2 resp)
                       response request_headers));
       status_code := Some 200 |}.
Proof. reflexivity. Qed.

(** X12: the TRACE handler leaves on the response the status 200 and the
    content type "message/http", whatever content type the request
    carried; every other request header is echoed under its lower-case
    name with the value of its last occurrence, a header the request does
    not carry is left as the response had it, and the body is returned
    decoded, or the request fails with 500 when it is not UTF-8. *)
Theorem trace_echoes_headers (decode_utf8 : list Byte.byte -> option string)
    (request_headers : list (string * string)) (request_body : list Byte.byte)
    (response : Response) :
  headers (get_trace decode_utf8 request_headers request_body response).1
    !! "content-type" = Some "message/http"
  /\ status_code
       (get_trace decode_utf8 request_headers request_body response).1
     = Some 200
  /\ (forall pre k v post,
        request_headers = pre ++ (k, v) :: post ->
        (forall kv, kv ∈ post -> lower kv.1 ≠ lower k) ->
        lower k ≠ "content-type" ->
        headers (get_trace decode_utf8 request_headers request_body response).1
          !! lower k = Some v)
  /\ (forall name,
        name ≠ "content-type" ->
        (forall kv, kv ∈ request_headers -> lower kv.1 ≠ name) ->
        headers (get_trace decode_utf8 request_headers request_body response).1
          !! name = headers response !! name)
  /\ (forall text,
        decode_utf8 request_body = Some text ->
        (get_trace decode_utf8 request_headers request_body response).2
          = Return text)
  /\ (decode_utf8 request_body = None ->
      http_status
        (get_trace decode_utf8 request_headers request_body response).2 = 500).
Proof.
  rewrite get_trace_response. cbn [headers status_code].
  split; [apply lookup_insert_eq|]. split; [reflexivity|].
  split; [|split; [|split]].
  - intros pre k v post -> Hlast Hct.
    rewrite lookup_insert_ne by congruence.
    apply echo_headers_last. exact Hlast.
  - intros name Hct Hno. rewrite lookup_insert_ne by congruence.
    apply echo_headers_absent. exact Hno.
  - intros text Hd. unfold get_trace. cbn [snd]. rewrite Hd. reflexivity.
  - intros Hd. unfold get_trace. cbn [snd]. rewrite Hd. reflexivity.
Qed.

Lemma trace_echoes_headers_witness :
  headers (get_trace (fun _ => Some "") Fixtures.trace_headers []
             Fixtures.fresh_response).1 !! lower "x-a" = Some "2".
Proof.
  apply (proj1 (proj2 (proj2 (trace_echoes_headers (fun _ => Some "")
                  Fixtures.trace_headers [] Fixtures.fresh_response)))
           [("host", "h"); ("content-type", "text/plain"); ("x-a", "1")]
           "x-a" "2" []).
  - reflexivity.
  - intros kv Hin. apply elem_of_nil in Hin. destruct Hin.
  - vm_compute. discriminate.
Defined.

(** ** Which documents exist *)

(** X13: update and complete neither create nor remove a document (an
    update of a missing record does not create it); a creation adds
    exactly the generated id; a delete removes the addressed id when it
    succeeds and nothing when it fails. *)
Theorem requests_and_existing_ids (r : request)
    (db : gmap string (gmap string value)) :
  match r with
  | ReqCreate auto_id _ _ =>
      dom (handle r db).1 = {[ auto_id ]} ∪ dom db
  | ReqUpdate _ _ _ | ReqComplete _ _ =>
      dom (handle r db).1 = dom db
  | ReqDelete task_id _ =>
      dom (handle r db).1
        = match (handle r db).2 with
          | Return _ => dom db ∖ {[ task_id ]}
          | Raise _ => dom db
          end
  end.
Proof.
  destruct r as [a t u | tid task user | tid user | tid user]; cbn [handle].
  - rewrite create_task_store. cbn [fst]. apply dom_insert_L.
  - destruct (update_task_store tid task user db)
      as [Hsame | (d & Hd & _ & _ & Hrun)]; [rewrite Hsame; reflexivity|].
    rewrite Hrun. cbn [fst]. apply dom_insert_lookup_L. exists d. exact Hd.
  - destruct (delete_task tid user db).2 as [a|e] eqn:Hout.
    + destruct (delete_task_store tid user db)
        as [Hsame | (d & Hd & _ & Hrun)].
      * destruct (db !! tid) as [d|] eqn:Hd.
        -- destruct (d !! "user_id") as [o|] eqn:Ho.
           ++ destruct (decide (o = VStr (uid user))) as [->|Hne].
              ** rewrite (delete_task_owner _ _ _ d) by assumption.
                 cbn [fst]. apply dom_delete_L.
              ** pose proof (run_op_forbidden OpDelete tid user db d o
                               Hd Ho Hne) as H.
                 cbn [run_op] in H. rewrite H in Hout. discriminate.
           ++ pose proof (run_op_no_owner OpDelete tid user db d Hd Ho) as H.
              cbn [run_op] in H. rewrite H in Hout. discriminate.
        -- pose proof (run_op_missing OpDelete tid user db Hd) as H.
           cbn [run_op] in H. rewrite H in Hout. discriminate.
      * rewrite Hrun. cbn [fst]. apply dom_delete_L.
    + pose proof (run_op_error_unchanged OpDelete tid user db e Hout) as H.
      cbn [run_op] in H. rewrite H. reflexivity.
  - destruct (complete_task_store tid user db)
      as [Hsame | (d & Hd & _ & Hrun)]; [rewrite Hsame; reflexivity|].
    rewrite Hrun. cbn [fst]. apply dom_insert_lookup_L. exists d. exact Hd.
Qed.
